(** * git-commit-manager: the unpushed-commit resolver, the commit composer
      and the commit-timestamp rewriter

    A shallow embedding of the extension's orchestration code
    ([gitTreeViewProvider.ts], [commitEditor.ts], [extension.ts],
    [diffViewer.ts]).  The code
    is glue around an external version-control binding, so the embedding
    keeps three things explicit:

    - the binding itself, a record of methods over an arbitrary repository
      state [R]: queries read the state, commands may change it, and every
      method may throw;
    - JavaScript's exceptions: a computation ends in a thrown value or in a
      result, and the state reached so far survives a throw;
    - the order of what the code does: every call of the binding and every
      user-visible effect is appended to a trace. *)

From Stdlib Require Import String Ascii List Bool PeanoNat DecimalString.
Import ListNotations.
Open Scope string_scope.

(** ** JavaScript values the code looks at *)

(** A thrown value.  The binding throws [Error] objects; [String(e)] and
    [e.message] are the two projections the handlers use. *)
Inductive Thrown : Type :=
| ErrorObject (name message : string)
| OtherValue (text : string).

(** [`${error}`]: [Error.prototype.toString]. *)
Definition String_of (e : Thrown) : string :=
  match e with
  | ErrorObject name message =>
      if (name =? "") then message
      else if (message =? "") then name
      else name ++ ": " ++ message
  | OtherValue text => text
  end.

(** [error instanceof Error ? error.message : '不明なエラー'] *)
Definition message_or_unknown (e : Thrown) : string :=
  match e with
  | ErrorObject _ message => message
  | OtherValue _ => "不明なエラー"
  end.

(** The text the external tool reported. *)
Definition error_text (e : Thrown) : string :=
  match e with
  | ErrorObject _ message => message
  | OtherValue text => text
  end.

(** Truthiness of a [string | null | undefined]. *)
Definition truthy (s : option string) : bool :=
  match s with
  | Some s => negb (s =? "")
  | None => false
  end.

(** [`${n}`] for a length. *)
Definition decimal (n : nat) : string := NilEmpty.string_of_uint (Nat.to_uint n).

(** [`${s}`] for a [string | null]. *)
Definition or_null (s : option string) : string :=
  match s with
  | Some s => s
  | None => "null"
  end.

(** [s.includes(sub)] *)
Fixpoint includes (s sub : string) : bool :=
  prefix sub s ||
  match s with
  | EmptyString => false
  | String _ s' => includes s' sub
  end.

(** [xs.length > 0] *)
Definition nonempty {A : Type} (xs : list A) : bool := (0 <? length xs)%nat.

(** The double-quote character, for the shell text of the filter. *)
Definition dquote : string := String (ascii_of_nat 34) EmptyString.

(** [s.replace(a, b)] with a one-character pattern: the first occurrence. *)
Fixpoint replace_first (a b : ascii) (s : string) : string :=
  match s with
  | EmptyString => EmptyString
  | String c s' => if Ascii.eqb c a then String b s' else String c (replace_first a b s')
  end.

(** ** The version-control binding (simple-git) *)

Record StatusResult : Type := {
  current : option string;
  tracking : option string;
  modified : list string;
  staged : list string;
  not_added : list string;
  deleted : list string;
  renamed : list (string * string)
}.

(** One entry of [LogResult.all]; the fields the extension reads. *)
Record LogEntry : Type := {
  hash : string;
  date : string;
  message : string
}.

Inductive GitCall : Type :=
| Status
| GetRemotes
| Log (options : list string)
| Branch (options : list string)
| Show (options : list string)
| Add (files : list string)
| Commit (msg : string) (commitDate : option string)
| Push
| Reset (options : list string)
| Raw (commands : list string).

(** The methods of a [SimpleGit] instance over a repository state [R].
    A query answers from the state; a command answers and leaves a state,
    also when it throws. *)
Record SimpleGit (R : Type) : Type := {
  status : R -> Thrown + StatusResult;
  getRemotes : R -> Thrown + list string;
  log : list string -> R -> Thrown + list LogEntry;
  branch : list string -> R -> Thrown + list string;
  show : list string -> R -> Thrown + string;
  add : list string -> R -> (Thrown + unit) * R;
  commit : string -> option string -> R -> (Thrown + unit) * R;
  push : R -> (Thrown + unit) * R;
  reset : list string -> R -> (Thrown + unit) * R;
  raw : list string -> R -> (Thrown + string) * R
}.

Arguments status {R}.
Arguments getRemotes {R}.
Arguments log {R}.
Arguments branch {R}.
Arguments show {R}.
Arguments add {R}.
Arguments commit {R}.
Arguments push {R}.
Arguments reset {R}.
Arguments raw {R}.

(** ** The editor host and the JavaScript runtime *)

Record InputBoxOptions : Type := {
  prompt : string;
  placeHolder : string;
  value : string
}.

Record Host : Type := {
  (** [vscode.workspace.workspaceFolders?.[0]?.uri.fsPath] *)
  workspaceFolder : option string;
  (** what the user answers to [vscode.window.showInputBox]; [None] is a
      cancelled prompt *)
  showInputBox : InputBoxOptions -> option string;
  (** [new Date(s)] holds a valid time value *)
  Date_valid : string -> bool;
  (** [new Date(s).toLocaleString('ja-JP', ...)], with or without seconds *)
  Date_toLocaleString : bool -> string -> string;
  (** [new Date(s).toISOString()] when the date is valid *)
  Date_toISOString : string -> string;
  (** [s.trim()] *)
  String_trim : string -> string
}.

(** ** Tree items *)

Inductive TreeItemCollapsibleState : Type := NoneState | Collapsed | Expanded.

Record Command : Type := {
  command : string;
  title : string;
  arguments : option (list string)
}.

Record GitTreeItem : Type := {
  label : string;
  collapsibleState : TreeItemCollapsibleState;
  contextValue : string;
  item_command : option Command;
  commitTime : option string;
  tooltip : string;
  description : option string;
  iconPath : option string
}.

Definition icon_of (contextValue : string) : option string :=
  if contextValue =? "branch" then Some "git-branch"
  else if contextValue =? "tracking" then Some "cloud"
  else if contextValue =? "modified-file" then Some "diff-modified"
  else if contextValue =? "staged-file" then Some "diff-added"
  else if contextValue =? "untracked-file" then Some "diff-ignored"
  else if contextValue =? "unpushed-commit" then Some "git-commit"
  else if contextValue =? "action" then Some "add"
  else if (contextValue =? "modified-group") || (contextValue =? "staged-group")
          || (contextValue =? "untracked-group") || (contextValue =? "unpushed-commits")
  then Some "folder"
  else None.

Definition newline : string := String (ascii_of_nat 10) EmptyString.

(** The constructor of [GitTreeItem]. *)
Definition new_GitTreeItem (label : string) (state : TreeItemCollapsibleState)
    (contextValue : string) (cmd : option Command) (commitTime : option string)
  : GitTreeItem :=
  let timed := truthy commitTime && (contextValue =? "unpushed-commit") in
  {| label := label;
     collapsibleState := state;
     contextValue := contextValue;
     item_command := cmd;
     commitTime := commitTime;
     tooltip := if timed
                then label ++ newline ++ "コミット時間: " ++ or_null commitTime
                else label;
     description := if timed then commitTime else None;
     iconPath := icon_of contextValue |}.

(** ** Messages between the commit composer's panel and the extension *)

(** What the panel's script posts to the extension. *)
Inductive PanelMessage : Type :=
| MsgGetStatus
| MsgCommit (commitMessage : string) (files : list string) (commitDate : option string)
| MsgPush.

(** What the extension posts to the panel. *)
Inductive HostMessage : Type :=
| StatusUpdate (s : StatusResult)
| CommitSuccess (text : string)
| PushSuccess (text : string)
| ErrorNote (text : string).

(** ** Traces *)

Inductive Event : Type :=
| Git (c : GitCall)
| ConsoleLog (text : string) (e : Thrown)
| InputBoxShown (options : InputBoxOptions) (answer : option string)
| InformationMessage (text : string)
| ErrorMessage (text : string)
| TreeRefresh
| PostToPanel (m : HostMessage)
| PanelShowMessage (text kind : string)
| PostToHost (m : PanelMessage).

(** The calls of the binding in a trace, in order. *)
Fixpoint git_calls (t : list Event) : list GitCall :=
  match t with
  | [] => []
  | Git c :: t' => c :: git_calls t'
  | _ :: t' => git_calls t'
  end.

(** The operations that only read the repository: status, list remotes, log
    and the listing of remote-tracking branches. *)
Definition read_only (c : GitCall) : bool :=
  match c with
  | Status | GetRemotes | Log _ => true
  | Branch ["-r"] => true
  | _ => false
  end.

(** The operations that change a repository. *)
Definition mutating (c : GitCall) : bool :=
  match c with
  | Add _ | Commit _ _ | Push | Reset _ | Raw _ => true
  | _ => false
  end.

(** A history rewrite: [git filter-branch] through [raw]. *)
Definition is_rewrite (c : GitCall) : bool :=
  match c with
  | Raw ("filter-branch" :: _) => true
  | _ => false
  end.

(** Staging and committing. *)
Definition is_add_or_commit (c : GitCall) : bool :=
  match c with
  | Add _ | Commit _ _ => true
  | _ => false
  end.

(** ** Computations: state, exceptions and a trace *)

Module Run.
Section Monad.
Context {R : Type}.

(** A computation starts in a repository state and ends with a thrown
    value or a result, the state it reached and the events it produced. *)
Definition M (A : Type) : Type := R -> (Thrown + A) * R * list Event.

Definition ret {A : Type} (a : A) : M A := fun r => (inr a, r, []).

Definition throw {A : Type} (e : Thrown) : M A := fun r => (inl e, r, []).

Definition bind {A B : Type} (m : M A) (k : A -> M B) : M B :=
  fun r =>
    match m r with
    | (inl e, r1, t1) => (inl e, r1, t1)
    | (inr a, r1, t1) =>
        match k a r1 with
        | (y, r2, t2) => (y, r2, (t1 ++ t2)%list)
        end
    end.

(** [try { m } catch (e) { h e }] *)
Definition try_catch {A : Type} (m : M A) (h : Thrown -> M A) : M A :=
  fun r =>
    match m r with
    | (inl e, r1, t1) =>
        match h e r1 with
        | (y, r2, t2) => (y, r2, (t1 ++ t2)%list)
        end
    | (inr a, r1, t1) => (inr a, r1, t1)
    end.

Definition emit (e : Event) : M unit := fun r => (inr tt, r, [e]).

(** [await git.<query>(...)] *)
Definition query {A : Type} (c : GitCall) (q : R -> Thrown + A) : M A :=
  fun r => (q r, r, [Git c]).

(** [await git.<command>(...)] *)
Definition exec {A : Type} (c : GitCall) (f : R -> (Thrown + A) * R) : M A :=
  fun r => let (x, r') := f r in (x, r', [Git c]).

End Monad.
End Run.

Import Run.

Declare Scope js_scope.
Delimit Scope js_scope with js.
Notation "x <- m ;; k" := (bind m (fun x => k))
  (at level 100, m at next level, right associativity) : js_scope.
Notation "m ;;; k" := (bind m (fun _ => k))
  (at level 100, right associativity) : js_scope.
Notation "'try' m 'catch' h" := (try_catch m h)
  (at level 100, m at next level, h at next level) : js_scope.
Open Scope js_scope.

(** The parts of a finished run. *)
Definition outcome {R A : Type} (x : (Thrown + A) * R * list Event) : Thrown + A :=
  fst (fst x).
Definition final_repo {R A : Type} (x : (Thrown + A) * R * list Event) : R :=
  snd (fst x).
Definition trace {R A : Type} (x : (Thrown + A) * R * list Event) : list Event :=
  snd x.

(** A computation that leaves the repository as it found it and calls the
    binding only for reading. *)
Definition Reads {R A : Type} (m : @M R A) : Prop :=
  forall r,
    final_repo (m r) = r /\
    Forall (fun c => read_only c = true) (git_calls (trace (m r))).

(** ** Calls of the binding *)

Section Calls.
Context {R : Type} (git : SimpleGit R).

Definition git_status : M StatusResult := query Status (status git).
Definition git_getRemotes : M (list string) := query GetRemotes (getRemotes git).
Definition git_log (options : list string) : M (list LogEntry) :=
  query (Log options) (log git options).
Definition git_branch (options : list string) : M (list string) :=
  query (Branch options) (branch git options).
Definition git_show (options : list string) : M string :=
  query (Show options) (show git options).
Definition git_add (files : list string) : M unit :=
  exec (Add files) (add git files).
Definition git_commit (msg : string) (commitDate : option string) : M unit :=
  exec (Commit msg commitDate) (commit git msg commitDate).
Definition git_push : M unit := exec Push (push git).
Definition git_reset (options : list string) : M unit :=
  exec (Reset options) (reset git options).
Definition git_raw (commands : list string) : M string :=
  exec (Raw commands) (raw git commands).
End Calls.

(** ** gitTreeViewProvider.ts *)

(** The fields of a [GitTreeViewProvider]; its [git] is the binding made
    for [workspaceRoot] by the constructor. *)
Record GitTreeViewProvider : Type := {
  workspaceRoot : option string
}.

(** The items [getChildren] pushes for the status, before it looks for
    unpushed commits. *)
Definition statusItems (st : StatusResult) : list GitTreeItem :=
  ([new_GitTreeItem ("ブランチ: " ++ or_null (current st)) NoneState "branch" None None]
   ++ (if truthy (tracking st)
       then [new_GitTreeItem ("追跡中: " ++ or_null (tracking st)) NoneState "tracking" None None]
       else [])
   ++ (if nonempty (modified st)
       then [new_GitTreeItem ("変更されたファイル (" ++ decimal (length (modified st)) ++ ")")
               Collapsed "modified-group" None None]
       else [])
   ++ (if nonempty (staged st)
       then [new_GitTreeItem ("ステージされたファイル (" ++ decimal (length (staged st)) ++ ")")
               Collapsed "staged-group" None None]
       else [])
   ++ (if nonempty (not_added st)
       then [new_GitTreeItem ("追跡されていないファイル (" ++ decimal (length (not_added st)) ++ ")")
               Collapsed "untracked-group" None None]
       else []))%list.

(** The collapsible node that announces [n] commits, pushed only when there
    is at least one. *)
Definition commitsGroup (items : list GitTreeItem) (caption : string) (n : nat)
  : list GitTreeItem :=
  if (0 <? n)%nat
  then (items ++ [new_GitTreeItem (caption ++ " (" ++ decimal n ++ ")")
                    Collapsed "unpushed-commits" None None])%list
  else items.

Definition actionItem : GitTreeItem :=
  new_GitTreeItem "新しいコミットを作成" NoneState "action"
    (Some {| command := "git-commit-manager.openCommitEditor";
             title := "新しいコミットを作成";
             arguments := None |})
    None.

Definition fileItem (contextValue caption kind file : string) : GitTreeItem :=
  new_GitTreeItem file NoneState contextValue
    (Some {| command := "git-commit-manager.showFileDiff";
             title := caption;
             arguments := Some [file; kind] |})
    None.

Section TreeView.
Context {R : Type}.
Variable simpleGit : option string -> SimpleGit R.
Variable host : Host.

(** The constructor: the root of the first workspace folder, if any. *)
Definition new_GitTreeViewProvider : GitTreeViewProvider :=
  {| workspaceRoot := workspaceFolder host |}.

(** [this.git] *)
Definition git_of (this : GitTreeViewProvider) : SimpleGit R :=
  simpleGit (workspaceRoot this).

(** The item of one commit in the listing. *)
Definition commitItem (c : LogEntry) : GitTreeItem :=
  let commitDate := Date_toLocaleString host false (date c) in
  new_GitTreeItem (substring 0 7 (hash c) ++ " " ++ message c) NoneState
    "unpushed-commit"
    (Some {| command := "git-commit-manager.editCommitDate";
             title := "コミット時間を編集";
             arguments := Some [hash c; date c] |})
    (Some commitDate).

(** [getChildrenForElement], case ['unpushed-commits']: the statements of
    the [try] block up to [return commits.map(...)]; the value is
    [commits]. *)
Definition unpushedCommits (this : GitTreeViewProvider) : M (list LogEntry) :=
  let git := git_of this in
  remotes <- git_getRemotes git ;;
  if nonempty remotes then
    try (git_log git ["origin/main..HEAD"])
    catch (fun _ =>
      try (git_log git ["origin/master..HEAD"])
      catch (fun _ =>
        try (branches <- git_branch git ["-r"] ;;
             match find (fun b => includes b "origin/") branches with
             | Some defaultBranch => git_log git [defaultBranch ++ "..HEAD"]
             | None => ret []
             end)
        catch (fun _ => git_log git ["--oneline"; "-10"])))
  else
    git_log git ["--oneline"; "-10"].

Definition getChildrenForElement (this : GitTreeViewProvider) (element : GitTreeItem)
  : M (list GitTreeItem) :=
  let git := git_of this in
  st <- git_status git ;;
  if contextValue element =? "modified-group" then
    ret (map (fileItem "modified-file" "変更点を表示" "modified") (modified st))
  else if contextValue element =? "staged-group" then
    ret (map (fileItem "staged-file" "変更点を表示" "staged") (staged st))
  else if contextValue element =? "untracked-group" then
    ret (map (fileItem "untracked-file" "新規ファイル内容を表示" "untracked") (not_added st))
  else if contextValue element =? "unpushed-commits" then
    try (commits <- unpushedCommits this ;;
         ret (map commitItem commits))
    catch (fun error =>
      emit (ConsoleLog "Error getting unpushed commits:" error) ;;;
      ret [])
  else
    ret [].

(** [getChildren], root case: the block under "プッシュされていないコミット".
    [items] is the array built so far; every [push] of the block comes after
    its last [await], so the array a handler sees is the one the block
    started with. *)
Definition unpushedSection (this : GitTreeViewProvider) (items : list GitTreeItem)
  : M (list GitTreeItem) :=
  let git := git_of this in
  try (remotes <- git_getRemotes git ;;
       if nonempty remotes then
         unpushed <-
           (try (git_log git ["origin/main..HEAD"])
            catch (fun _ =>
              try (git_log git ["origin/master..HEAD"])
              catch (fun _ =>
                try (branches <- git_branch git ["-r"] ;;
                     match find (fun b => includes b "origin/") branches with
                     | Some defaultBranch => git_log git [defaultBranch ++ "..HEAD"]
                     | None => ret []
                     end)
                catch (fun _ => git_log git ["--oneline"; "-10"])))) ;;
         ret (commitsGroup items "プッシュされていないコミット" (length unpushed))
       else
         allCommits <- git_log git ["--oneline"; "-10"] ;;
         ret (commitsGroup items "最新のコミット" (length allCommits)))
  catch (fun error =>
    emit (ConsoleLog "Git log error:" error) ;;;
    try (allCommits <- git_log git ["--oneline"; "-5"] ;;
         ret (commitsGroup items "ローカルコミット" (length allCommits)))
    catch (fun logError =>
      emit (ConsoleLog "Failed to get any commits:" logError) ;;;
      ret items)).

Definition getChildren (this : GitTreeViewProvider) (element : option GitTreeItem)
  : M (list GitTreeItem) :=
  if negb (truthy (workspaceRoot this)) then
    ret [new_GitTreeItem "ワークスペースを開いてください" NoneState "info" None None]
  else
    match element with
    | None =>
        try (st <- git_status (git_of this) ;;
             items <- unpushedSection this (statusItems st) ;;
             ret (items ++ [actionItem])%list)
        catch (fun _ =>
          ret [new_GitTreeItem "Gitリポジトリが見つかりません" NoneState "error" None None])
    | Some element => getChildrenForElement this element
    end.

End TreeView.

(** ** commitEditor.ts: the script of the panel *)

Record Checkbox : Type := {
  cb_value : string;
  cb_checked : bool
}.

(** What the script reads from the panel's document. *)
Record PanelDocument : Type := {
  checkboxes : list Checkbox;
  commit_message : string;
  commit_date : string
}.

(** What a click handler of the panel does. *)
Inductive PanelEffect : Type :=
| showMessage (text kind : string)
| postMessage (m : PanelMessage).

Definition getSelectedFiles (doc : PanelDocument) : list string :=
  map cb_value (filter cb_checked (checkboxes doc)).

Definition getAllFiles (doc : PanelDocument) : list string :=
  map cb_value (checkboxes doc).

(** [commitDate || null] *)
Definition or_absent (s : string) : option string :=
  if s =? "" then None else Some s.

Section Panel.
Variable host : Host.

(** The click listener of [commit-btn]. *)
Definition commitBtn_click (doc : PanelDocument) : PanelEffect :=
  let commitMessage := String_trim host (commit_message doc) in
  if commitMessage =? "" then
    showMessage "コミットメッセージを入力してください" "error"
  else
    let selectedFiles := getSelectedFiles doc in
    if (length selectedFiles =? 0)%nat then
      showMessage "コミットするファイルを選択してください" "error"
    else
      postMessage (MsgCommit commitMessage selectedFiles (or_absent (commit_date doc))).

(** The click listener of [commit-all-btn]. *)
Definition commitAllBtn_click (doc : PanelDocument) : PanelEffect :=
  let commitMessage := String_trim host (commit_message doc) in
  if commitMessage =? "" then
    showMessage "コミットメッセージを入力してください" "error"
  else
    let allFiles := getAllFiles doc in
    if (length allFiles =? 0)%nat then
      showMessage "コミットするファイルがありません" "error"
    else
      postMessage (MsgCommit commitMessage allFiles (or_absent (commit_date doc))).

Definition pushBtn_click : PanelEffect := postMessage MsgPush.

Definition refreshBtn_click : PanelEffect := postMessage MsgGetStatus.
End Panel.

(** ** commitEditor.ts: the extension side *)

(** The field of a [CommitEditorProvider]: the directory its [git] is bound
    to ([None] for [simpleGit()]). *)
Record CommitEditorProvider : Type := {
  boundTo : option string
}.

Section CommitEditor.
Context {R : Type}.
Variable simpleGit : option string -> SimpleGit R.
Variable host : Host.

Definition new_CommitEditorProvider : CommitEditorProvider :=
  {| boundTo := None |}.

(** [this.git = simpleGit(workspaceFolder.uri.fsPath)], when there is a
    workspace folder. *)
Definition rebound (this : CommitEditorProvider) : CommitEditorProvider :=
  match workspaceFolder host with
  | Some ws => {| boundTo := Some ws |}
  | None => this
  end.

(** The value is the provider after the call: [handleGetStatus] rebinds
    [this.git] before it asks for the status. *)
Definition handleGetStatus (this : CommitEditorProvider) : M CommitEditorProvider :=
  try (match workspaceFolder host with
       | None =>
           emit (PostToPanel (ErrorNote "ワークスペースフォルダが見つかりません")) ;;;
           ret this
       | Some ws =>
           st <- git_status (simpleGit (Some ws)) ;;
           emit (PostToPanel (StatusUpdate st)) ;;;
           ret (rebound this)
       end)
  catch (fun error =>
    emit (PostToPanel (ErrorNote ("Gitステータスエラー: " ++ message_or_unknown error))) ;;;
    ret (rebound this)).

Definition handleCommit (this : CommitEditorProvider) (commitMessage : string)
    (files : list string) (commitDate : option string) : M CommitEditorProvider :=
  let git := simpleGit (boundTo this) in
  try ((if nonempty files then git_add git files else ret tt) ;;;
       (if truthy commitDate
        then git_commit git commitMessage commitDate
        else git_commit git commitMessage None) ;;;
       emit (PostToPanel (CommitSuccess "コミットが成功しました！")) ;;;
       handleGetStatus this)
  catch (fun error =>
    emit (PostToPanel (ErrorNote ("コミットエラー: " ++ message_or_unknown error))) ;;;
    ret this).

Definition handlePush (this : CommitEditorProvider) : M CommitEditorProvider :=
  let git := simpleGit (boundTo this) in
  try (git_push git ;;;
       emit (PostToPanel (PushSuccess "プッシュが成功しました！")) ;;;
       ret this)
  catch (fun error =>
    emit (PostToPanel (ErrorNote ("プッシュエラー: " ++ message_or_unknown error))) ;;;
    ret this).

(** The listener registered by [showCommitEditor]. *)
Definition onDidReceiveMessage (this : CommitEditorProvider) (m : PanelMessage)
  : M CommitEditorProvider :=
  match m with
  | MsgGetStatus => handleGetStatus this
  | MsgCommit commitMessage files commitDate =>
      handleCommit this commitMessage files commitDate
  | MsgPush => handlePush this
  end.

(** A click in the panel: the script's handler runs, and a message it posts
    is delivered to the listener of the extension. *)
Definition click (this : CommitEditorProvider) (effect : PanelEffect)
  : M CommitEditorProvider :=
  match effect with
  | showMessage text kind =>
      emit (PanelShowMessage text kind) ;;;
      ret this
  | postMessage m =>
      emit (PostToHost m) ;;;
      onDidReceiveMessage this m
  end.

End CommitEditor.

(** ** extension.ts: the commands *)

(** The text of the [--env-filter] argument. *)
Definition env_filter (commitHash newDate : string) : string :=
  "if [ $GIT_COMMIT = " ++ commitHash ++ " ]; then export GIT_AUTHOR_DATE="
   ++ dquote ++ newDate ++ dquote ++ "; export GIT_COMMITTER_DATE="
   ++ dquote ++ newDate ++ dquote ++ "; fi".

(** The arguments of the history rewrite. *)
Definition rewrite_request (commitHash newDate : string) : list string :=
  ["filter-branch"; "--env-filter"; env_filter commitHash newDate; "--"; "--all"].

Definition unavailable : string := "取得できませんでした".

Section Commands.
Context {R : Type}.
Variable simpleGit : option string -> SimpleGit R.
Variable host : Host.

(** [new Date(s).toISOString()]: a [RangeError] for an invalid date. *)
Definition toISOString (s : string) : @M R string :=
  if Date_valid host s
  then ret (Date_toISOString host s)
  else throw (ErrorObject "RangeError" "Invalid time value").

(** [await vscode.window.showInputBox(options)] *)
Definition askInputBox (options : InputBoxOptions) : @M R (option string) :=
  let answer := showInputBox host options in
  emit (InputBoxShown options answer) ;;;
  ret answer.

Definition stageFileCommand (fileName : string) : M unit :=
  try (match workspaceFolder host with
       | None => ret tt
       | Some ws =>
           git_add (simpleGit (Some ws)) [fileName] ;;;
           emit TreeRefresh ;;;
           emit (InformationMessage (fileName ++ " をステージしました"))
       end)
  catch (fun error => emit (ErrorMessage ("ステージエラー: " ++ String_of error))).

Definition unstageFileCommand (fileName : string) : M unit :=
  try (match workspaceFolder host with
       | None => ret tt
       | Some ws =>
           git_reset (simpleGit (Some ws)) ["HEAD"; fileName] ;;;
           emit TreeRefresh ;;;
           emit (InformationMessage (fileName ++ " のステージを解除しました"))
       end)
  catch (fun error => emit (ErrorMessage ("ステージ解除エラー: " ++ String_of error))).

(** [currentCommitDate && currentCommitDate !== '取得できませんでした'] *)
Definition known (currentCommitDate : string) : bool :=
  negb (currentCommitDate =? "") && negb (currentCommitDate =? unavailable).

(** The command [git-commit-manager.editCommitDate].  The [try] around
    [toLocaleString] is left out: the call gives a text for every date, also
    for an invalid one, while [toISOString], two statements later and outside
    that [try], throws for an invalid date. *)
Definition editCommitDateCommand (commitHash : string) (currentDate : option string)
  : M unit :=
  try (match workspaceFolder host with
       | None => ret tt
       | Some ws =>
           let git := simpleGit (Some ws) in
           currentCommitDate <-
             (if truthy currentDate
              then ret (or_null currentDate)
              else
                try (commitInfo <- git_show git ["--format=%ci"; "-s"; commitHash] ;;
                     ret (String_trim host commitInfo))
                catch (fun _ => ret unavailable)) ;;
           let displayDate :=
             if known currentCommitDate
             then Date_toLocaleString host true currentCommitDate
             else currentCommitDate in
           initial <-
             (if known currentCommitDate
              then iso <- toISOString currentCommitDate ;;
                   ret (replace_first "T" " " (substring 0 19 iso))
              else ret "") ;;
           newDate <-
             askInputBox
               {| prompt := "新しいコミット時間を入力してください (YYYY-MM-DD HH:MM:SS)"
                            ++ newline ++ "現在の時間: " ++ displayDate;
                  placeHolder := "2024-01-01 12:00:00";
                  value := initial |} ;;
           match newDate with
           | None => ret tt
           | Some newDate =>
               if newDate =? "" then ret tt
               else
                 git_raw git (rewrite_request commitHash newDate) ;;;
                 emit TreeRefresh ;;;
                 emit (InformationMessage
                         ("コミット " ++ substring 0 7 commitHash ++ " の時間を更新しました"))
           end
       end)
  catch (fun error => emit (ErrorMessage ("コミット時間編集エラー: " ++ String_of error))).

End Commands.

(** ** A sample tool, for concrete runs

    A small stand-in for the external tool: a history (newest first), the
    remote-tracking branches with the hashes each one reaches, and the
    answers a log query gives for the two kinds of arguments the extension
    passes.  The theorems below hold for every binding; this one only
    supplies concrete repositories. *)

Module Sample.

Record Repo : Type := {
  remotes : list string;
  tracking_branches : list (string * list string);
  history : list LogEntry;
  work : StatusResult;
  config_error : option Thrown;
  accepted_dates : list string;
  rewrites : nat
}.

Definition fatal (text : string) : Thrown := ErrorObject "Error" ("fatal: " ++ text).

(** [Some base] for a range [base..HEAD]. *)
Fixpoint range_base (s : string) : option string :=
  if s =? "..HEAD" then Some EmptyString
  else match s with
       | EmptyString => None
       | String c s' => option_map (String c) (range_base s')
       end.

Fixpoint lookup (k : string) (l : list (string * list string)) : option (list string) :=
  match l with
  | [] => None
  | (k', v) :: l' => if k =? k' then Some v else lookup k l'
  end.

Definition recent (n : nat) (r : Repo) : Thrown + list LogEntry :=
  match history r with
  | [] => inl (fatal "your current branch does not have any commits yet")
  | _ => inr (firstn n (history r))
  end.

Definition ahead_of (range base : string) (r : Repo) : Thrown + list LogEntry :=
  match lookup base (tracking_branches r) with
  | Some reached =>
      inr (filter (fun c => negb (existsb (String.eqb (hash c)) reached)) (history r))
  | None =>
      inl (fatal ("ambiguous argument '" ++ range ++ "': unknown revision"))
  end.

(** The sample tool answers a limited log with the entries themselves, as
    [git log -n] lists the commits.  The real binding, handed [--oneline],
    does not: see [Cases.as_simple_git]. *)
Definition sample_log (options : list string) (r : Repo) : Thrown + list LogEntry :=
  match options with
  | ["--oneline"; "-10"] => recent 10 r
  | ["--oneline"; "-5"] => recent 5 r
  | [range] =>
      match range_base range with
      | Some base => ahead_of range base r
      | None => inl (fatal ("bad revision '" ++ range ++ "'"))
      end
  | _ => inl (fatal "unsupported arguments")
  end.

Definition sample_show (options : list string) (r : Repo) : Thrown + string :=
  match options with
  | [_; _; h] =>
      match find (fun c => hash c =? h) (history r) with
      | Some c => inr (date c)
      | None => inl (fatal ("bad object " ++ h))
      end
  | _ => inl (fatal "unsupported arguments")
  end.

Definition sample_raw (commands : list string) (r : Repo) : (Thrown + string) * Repo :=
  match commands with
  | ["filter-branch"; "--env-filter"; f; "--"; "--all"] =>
      if existsb (fun d => includes f (dquote ++ d ++ dquote)) (accepted_dates r)
      then (inr EmptyString,
            {| remotes := remotes r; tracking_branches := tracking_branches r;
               history := history r; work := work r; config_error := config_error r;
               accepted_dates := accepted_dates r; rewrites := S (rewrites r) |})
      else (inl (fatal "invalid date format in GIT_AUTHOR_DATE"), r)
  | _ => (inl (fatal "unsupported arguments"), r)
  end.

Definition with_work (r : Repo) (w : StatusResult) : Repo :=
  {| remotes := remotes r; tracking_branches := tracking_branches r;
     history := history r; work := w; config_error := config_error r;
     accepted_dates := accepted_dates r; rewrites := rewrites r |}.

Definition sample_add (files : list string) (r : Repo) : (Thrown + unit) * Repo :=
  let w := work r in
  (inr tt,
   with_work r
     {| current := current w; tracking := tracking w; modified := modified w;
        staged := (staged w ++ files)%list; not_added := not_added w;
        deleted := deleted w; renamed := renamed w |}).

Definition sample_commit (msg : string) (commitDate : option string) (r : Repo)
  : (Thrown + unit) * Repo :=
  let w := work r in
  match staged w with
  | [] => (inl (ErrorObject "Error" "nothing to commit, working tree clean"), r)
  | _ =>
      (inr tt,
       {| remotes := remotes r; tracking_branches := tracking_branches r;
          history := {| hash := "new" ++ decimal (length (history r));
                        date := or_null commitDate;
                        message := msg |} :: history r;
          work := {| current := current w; tracking := tracking w;
                     modified := modified w; staged := [];
                     not_added := not_added w; deleted := deleted w;
                     renamed := renamed w |};
          config_error := config_error r;
          accepted_dates := accepted_dates r; rewrites := rewrites r |})
  end.

Definition sample_push (r : Repo) : (Thrown + unit) * Repo :=
  match remotes r with
  | [] => (inl (fatal "No configured push destination."), r)
  | _ => (inr tt, r)
  end.

Definition sample_reset (options : list string) (r : Repo) : (Thrown + unit) * Repo :=
  let w := work r in
  (inr tt,
   with_work r
     {| current := current w; tracking := tracking w; modified := modified w;
        staged := []; not_added := not_added w;
        deleted := deleted w; renamed := renamed w |}).

(** The binding; the sample tool answers alike in every directory. *)
Definition simpleGit (_ : option string) : SimpleGit Repo :=
  {| status := fun r => inr (work r);
     getRemotes := fun r =>
       match config_error r with
       | Some e => inl e
       | None => inr (remotes r)
       end;
     log := sample_log;
     branch := fun _ r => inr (map fst (tracking_branches r));
     show := sample_show;
     add := sample_add;
     commit := sample_commit;
     push := sample_push;
     reset := sample_reset;
     raw := sample_raw |}.

(** A host with an open workspace whose user answers every prompt with
    [answer]. *)
Definition host (answer : option string) : Host :=
  {| workspaceFolder := Some "/work";
     showInputBox := fun _ => answer;
     Date_valid := fun s => (String.length s =? 19)%nat;
     Date_toLocaleString := fun _ s => s;
     Date_toISOString := fun s => replace_first " " "T" s ++ ".000Z";
     String_trim := fun s => s |}.

Definition provider : GitTreeViewProvider := {| workspaceRoot := Some "/work" |}.

Definition entry (h m : string) : LogEntry :=
  {| hash := h; date := "2024-05-01 10:00:00"; message := m |}.

Definition clean : StatusResult :=
  {| current := Some "main"; tracking := None; modified := []; staged := [];
     not_added := []; deleted := []; renamed := [] |}.

(** Five commits on the current branch, newest first. *)
Definition five : list LogEntry :=
  [entry "e5e5e5e5e5" "five"; entry "d4d4d4d4d4" "four"; entry "c3c3c3c3c3" "three";
   entry "b2b2b2b2b2" "two"; entry "a1a1a1a1a1" "one"].

(** Twelve commits, newest first. *)
Definition twelve : list LogEntry :=
  (map (fun n => entry ("c" ++ decimal n) ("commit " ++ decimal n))
       [12; 11; 10; 9; 8; 7; 6; 5; 4; 3; 2; 1])%nat.

Definition repo (rs : list string) (bs : list (string * list string))
    (h : list LogEntry) : Repo :=
  {| remotes := rs; tracking_branches := bs; history := h; work := clean;
     config_error := None; accepted_dates := ["2024-01-01 12:00:00"];
     rewrites := 0 |}.

(** [origin/main] exists and HEAD is two commits ahead of it. *)
Definition ahead_of_main : Repo :=
  repo ["origin"] [("origin/main", ["c3c3c3c3c3"; "b2b2b2b2b2"; "a1a1a1a1a1"])] five.

(** [origin/main] is absent, [origin/master] exists and HEAD is three
    commits ahead of it. *)
Definition ahead_of_master : Repo :=
  repo ["origin"] [("origin/master", ["b2b2b2b2b2"; "a1a1a1a1a1"])] five.

(** A remote is configured, but no remote-tracking branch carries
    [origin/] in its name. *)
Definition upstream_only : Repo :=
  repo ["upstream"] [("upstream/develop", ["a1a1a1a1a1"])] five.

(** No remote at all, twelve local commits. *)
Definition local_only : Repo := repo [] [] twelve.

(** Listing the remotes fails; the history can still be read. *)
Definition broken_config : Repo :=
  {| remotes := ["origin"]; tracking_branches := []; history := five; work := clean;
     config_error := Some (fatal "bad config line 3 in file .git/config");
     accepted_dates := []; rewrites := 0 |}.

Definition group_node : GitTreeItem :=
  new_GitTreeItem "ローカルコミット (5)" Collapsed "unpushed-commits" None None.

(** The panel with one unchecked file and a message typed in. *)
Definition nothing_selected : PanelDocument :=
  {| checkboxes := [{| cb_value := "README.md"; cb_checked := false |}];
     commit_message := "update readme";
     commit_date := "" |}.

End Sample.

(** ** diffViewer.ts *)

Definition LF : ascii := ascii_of_nat 10.

(** [s.split('\n')] *)
Fixpoint split_lines (s : string) : list string :=
  match s with
  | EmptyString => [EmptyString]
  | String c s' =>
      if Ascii.eqb c LF then EmptyString :: split_lines s'
      else match split_lines s' with
           | l :: ls => String c l :: ls
           | [] => [String c EmptyString]
           end
  end.

(** [lines.join('\n')] *)
Fixpoint join_lines (ls : list string) : string :=
  match ls with
  | [] => EmptyString
  | l :: ls' =>
      match ls' with
      | [] => l
      | _ :: _ => l ++ newline ++ join_lines ls'
      end
  end.

(** [text.replace(/c/g, by)] for a one-character pattern. *)
Fixpoint replace_all (c : ascii) (by_ : string) (s : string) : string :=
  match s with
  | EmptyString => EmptyString
  | String d s' =>
      if Ascii.eqb d c then by_ ++ replace_all c by_ s'
      else String d (replace_all c by_ s')
  end.

Definition escapeHtml (text : string) : string :=
  replace_all "'" "&#39;"
    (replace_all (ascii_of_nat 34) "&quot;"
       (replace_all ">" "&gt;"
          (replace_all "<" "&lt;"
             (replace_all "&" "&amp;" text)))).

(** [line.startsWith(p)] *)
Definition startsWith (line p : string) : bool := prefix p line.

(** The function mapped over the lines by [colorDiff]. *)
Definition colorLine (line : string) : string :=
  if startsWith line "+" then
    "<span class=" ++ dquote ++ "diff-line-added" ++ dquote ++ ">" ++ line ++ "</span>"
  else if startsWith line "-" then
    "<span class=" ++ dquote ++ "diff-line-removed" ++ dquote ++ ">" ++ line ++ "</span>"
  else if startsWith line "@@" then
    "<span class=" ++ dquote ++ "diff-line-info" ++ dquote ++ ">" ++ line ++ "</span>"
  else
    "<span class=" ++ dquote ++ "diff-line-context" ++ dquote ++ ">" ++ line ++ "</span>".

Definition colorDiff (diffText : string) : string :=
  join_lines (map colorLine (split_lines diffText)).

Definition createNewFileDiff (fileName content : string) : string :=
  let lines := split_lines content in
  let diff := "diff --git a/" ++ fileName ++ " b/" ++ fileName ++ newline in
  let diff := diff ++ "new file mode 100644" ++ newline in
  let diff := diff ++ "index 0000000..1234567" ++ newline in
  let diff := diff ++ "--- /dev/null" ++ newline in
  let diff := diff ++ "+++ b/" ++ fileName ++ newline in
  let diff := diff ++ "@@ -0,0 +1," ++ decimal (length lines) ++ " @@" ++ newline in
  fold_left (fun diff line => diff ++ "+" ++ line ++ newline) lines diff.

(** ['modified' | 'staged' | 'untracked'], the type of [fileStatus]. *)
Inductive FileStatus : Type := Modified | Staged | Untracked.

(** The entry of [statusText] for a status. *)
Definition statusText (fileStatus : FileStatus) : string :=
  match fileStatus with
  | Modified => "変更"
  | Staged => "ステージ済み"
  | Untracked => "新規"
  end.

(** The fixed text of the page of [getWebviewContent], between its
    placeholders. *)
Definition diffPage_1 : string :=
  "<!DOCTYPE html>
<html lang=" ++ dquote ++ "ja" ++ dquote ++ ">
<head>
    <meta charset=" ++ dquote ++ "UTF-8" ++ dquote ++ ">
    <meta name=" ++ dquote ++ "viewport" ++ dquote ++ " content=" ++ dquote ++ "width=device-width, initial-scale=1.0" ++ dquote ++ ">
    <title>差分表示: ".

Definition diffPage_2 : string :=
  "</title>
    <style>
        body {
            font-family: 'Consolas', 'Monaco', 'Courier New', monospace;
            background-color: var(--vscode-editor-background);
            color: var(--vscode-editor-foreground);
            margin: 0;
            padding: 20px;
            line-height: 1.4;
        }
        .header {
            background-color: var(--vscode-textBlockQuote-background);
            padding: 15px;
            border-left: 4px solid var(--vscode-textLink-foreground);
            margin-bottom: 20px;
            border-radius: 5px;
        }
        .file-name {
            font-size: 18px;
            font-weight: bold;
            color: var(--vscode-textLink-foreground);
        }
        .file-status {
            font-size: 14px;
            color: var(--vscode-descriptionForeground);
            margin-top: 5px;
        }
        .diff-container {
            background-color: var(--vscode-textCodeBlock-background);
            border: 1px solid var(--vscode-panel-border);
            border-radius: 5px;
            overflow: auto;
            max-height: 80vh;
        }
        .diff-content {
            padding: 15px;
            white-space: pre;
            font-size: 13px;
            margin: 0;
        }
        .diff-line-added {
            background-color: rgba(0, 255, 0, 0.1);
            color: #4ec9b0;
        }
        .diff-line-removed {
            background-color: rgba(255, 0, 0, 0.1);
            color: #f48771;
        }
        .diff-line-info {
            background-color: rgba(0, 150, 255, 0.1);
            color: #9cdcfe;
        }
        .diff-line-context {
            color: var(--vscode-editor-foreground);
        }
        .no-changes {
            color: var(--vscode-descriptionForeground);
            font-style: italic;
            text-align: center;
            padding: 40px;
        }
    </style>
</head>
<body>
    <div class=" ++ dquote ++ "header" ++ dquote ++ ">
        <div class=" ++ dquote ++ "file-name" ++ dquote ++ ">".

Definition diffPage_3 : string :=
  "</div>
        <div class=" ++ dquote ++ "file-status" ++ dquote ++ ">ステータス: ".

Definition diffPage_4 : string :=
  "</div>
    </div>
    
    <div class=" ++ dquote ++ "diff-container" ++ dquote ++ ">
        ".

Definition diffPage_5 : string :=
  "
    </div>
</body>
</html>".

(** The fixed text of the page of [getErrorContent]. *)
Definition errorPage_1 : string :=
  "<!DOCTYPE html>
<html lang=" ++ dquote ++ "ja" ++ dquote ++ ">
<head>
    <meta charset=" ++ dquote ++ "UTF-8" ++ dquote ++ ">
    <meta name=" ++ dquote ++ "viewport" ++ dquote ++ " content=" ++ dquote ++ "width=device-width, initial-scale=1.0" ++ dquote ++ ">
    <title>エラー: ".

Definition errorPage_2 : string :=
  "</title>
    <style>
        body {
            font-family: var(--vscode-font-family);
            background-color: var(--vscode-editor-background);
            color: var(--vscode-errorForeground);
            margin: 0;
            padding: 20px;
        }
        .error-container {
            background-color: var(--vscode-inputValidation-errorBackground);
            border: 1px solid var(--vscode-inputValidation-errorBorder);
            border-radius: 5px;
            padding: 20px;
            text-align: center;
        }
    </style>
</head>
<body>
    <div class=" ++ dquote ++ "error-container" ++ dquote ++ ">
        <h2>エラーが発生しました</h2>
        <p>".

Definition errorPage_3 : string :=
  "</p>
    </div>
</body>
</html>".

(** What the diff viewer asks of its surroundings: [git.diff] of the binding
    made for a directory, the text of a file as
    [Buffer.from(await fs.readFile(uri)).toString('utf8')] gives it, and
    [vscode.Uri.joinPath]. *)
Record DiffViewerEnv (R : Type) : Type := {
  git_diff : option string -> list string -> R -> Thrown + string;
  fs_readFile : string -> R -> Thrown + string;
  Uri_joinPath : string -> string -> string
}.

Arguments git_diff {R}.
Arguments fs_readFile {R}.
Arguments Uri_joinPath {R}.

(** The field of a [DiffViewerProvider]: the directory its [git] was made
    for by the constructor. *)
Record DiffViewerProvider : Type := {
  viewerRoot : option string
}.

(** The panel [showFileDiff] creates. *)
Record DiffPanel : Type := {
  panel_title : string;
  panel_html : string
}.

Section DiffViewer.
Context {R : Type}.
Variable env : DiffViewerEnv R.
Variable host : Host.

Definition new_DiffViewerProvider : DiffViewerProvider :=
  {| viewerRoot := workspaceFolder host |}.

(** [fileStatus] has the type [showFileDiff] declares for it, so the lookup
    in [statusText] always finds an entry and the [|| fileStatus] behind it
    is never taken. *)
Definition getWebviewContent (fileName : string) (fileStatus : FileStatus)
    (diffContent : string) : string :=
  let escapedDiff := escapeHtml diffContent in
  let coloredDiff := colorDiff escapedDiff in
  diffPage_1 ++ fileName ++ diffPage_2 ++ fileName ++ diffPage_3
    ++ statusText fileStatus ++ diffPage_4
    ++ (if negb (String_trim host diffContent =? "")
        then "<pre class=" ++ dquote ++ "diff-content" ++ dquote ++ ">"
               ++ coloredDiff ++ "</pre>"
        else "<div class=" ++ dquote ++ "no-changes" ++ dquote ++ ">変更点がありません</div>")
    ++ diffPage_5.

Definition getErrorContent (fileName errorMessage : string) : string :=
  errorPage_1 ++ fileName ++ errorPage_2 ++ errorMessage ++ errorPage_3.

(** The body of the [try] of [showFileDiff] up to the assignment of the
    page: the value is [diffContent]. *)
Definition diffContentFor (this : DiffViewerProvider) (fileName : string)
    (fileStatus : FileStatus) (r : R) : Thrown + string :=
  match fileStatus with
  | Modified => git_diff env (viewerRoot this) [fileName] r
  | Staged => git_diff env (viewerRoot this) ["--cached"; fileName] r
  | Untracked =>
      match workspaceFolder host with
      | Some ws =>
          match fs_readFile env (Uri_joinPath env ws fileName) r with
          | inr content => inr (createNewFileDiff fileName content)
          | inl error => inr ("ファイルの読み取りに失敗しました: " ++ String_of error)
          end
      | None => inr EmptyString
      end
  end.

Definition showFileDiff (this : DiffViewerProvider) (fileName : string)
    (fileStatus : FileStatus) (r : R) : DiffPanel :=
  {| panel_title := "差分表示: " ++ fileName;
     panel_html :=
       match diffContentFor this fileName fileStatus r with
       | inr diffContent => getWebviewContent fileName fileStatus diffContent
       | inl error =>
           getErrorContent fileName ("差分の取得に失敗しました: " ++ String_of error)
       end |}.

End DiffViewer.

(** ** commitEditor.ts: what the script of the panel renders *)

(** The three lists of the panel, by the status text [updateFileList] is
    called with. *)
Inductive ListKind : Type := ListModified | ListAdded | ListUntracked.

(** [status], [status.toLowerCase()] and [status.toUpperCase()]. *)
Definition kind_status (k : ListKind) : string :=
  match k with
  | ListModified => "Modified"
  | ListAdded => "Added"
  | ListUntracked => "Untracked"
  end.

Definition kind_lower (k : ListKind) : string :=
  match k with
  | ListModified => "modified"
  | ListAdded => "added"
  | ListUntracked => "untracked"
  end.

Definition kind_upper (k : ListKind) : string :=
  match k with
  | ListModified => "MODIFIED"
  | ListAdded => "ADDED"
  | ListUntracked => "UNTRACKED"
  end.

(** The entry of [statusMap] for a list. *)
Definition statusMap (k : ListKind) : string :=
  match k with
  | ListModified => "変更された"
  | ListAdded => "ステージされた"
  | ListUntracked => "追跡されていない"
  end.

(** The element [createFileItem] builds: a checkbox, a label and a status
    tag. *)
Record FileItem : Type := {
  item_checkbox : Checkbox;
  item_label : string;
  item_status_class : string;
  item_status_text : string
}.

Definition createFileItem (fileName : string) (k : ListKind) (isStaged : bool)
  : FileItem :=
  {| item_checkbox := {| cb_value := fileName; cb_checked := isStaged |};
     item_label := fileName;
     item_status_class := "file-status status-" ++ kind_lower k;
     item_status_text := kind_upper k |}.

(** What a list of the panel holds: a text, or file items. *)
Inductive Container : Type :=
| TextContent (text : string)
| Children (items : list FileItem).

(** The container after [updateFileList]. *)
Definition updateFileList (files : list string) (k : ListKind) (isStaged : bool)
  : Container :=
  if (length files =? 0)%nat then
    TextContent (statusMap k ++ "ファイルなし")
  else
    Children (map (fun file => createFileItem file k isStaged) files).

(** The parts of the panel the script reads and writes. [messages] holds
    the calls of [showMessage] so far, as text and kind. *)
Record Panel : Type := {
  repo_status : string;
  messages : list (string * string);
  modified_files : Container;
  staged_files : Container;
  untracked_files : Container;
  commit_message_box : string;
  commit_date_box : string
}.

(** The panel as the page is loaded. *)
Definition initialPanel : Panel :=
  {| repo_status := "読み込み中...";
     messages := [];
     modified_files := TextContent "変更されたファイルなし";
     staged_files := TextContent "ステージされたファイルなし";
     untracked_files := TextContent "追跡されていないファイルなし";
     commit_message_box := EmptyString;
     commit_date_box := EmptyString |}.

Definition boxes (c : Container) : list Checkbox :=
  match c with
  | TextContent _ => []
  | Children items => map item_checkbox items
  end.

(** What the click listeners read: the checkboxes in the order of the
    document, and the two input fields. *)
Definition document_of (p : Panel) : PanelDocument :=
  {| checkboxes := (boxes (modified_files p) ++ boxes (staged_files p)
                    ++ boxes (untracked_files p))%list;
     commit_message := commit_message_box p;
     commit_date := commit_date_box p |}.

Definition shown (p : Panel) (text kind : string) : Panel :=
  {| repo_status := repo_status p;
     messages := (messages p ++ [(text, kind)])%list;
     modified_files := modified_files p;
     staged_files := staged_files p;
     untracked_files := untracked_files p;
     commit_message_box := commit_message_box p;
     commit_date_box := commit_date_box p |}.

(** The [innerHTML] written to [repo-status]. *)
Definition repoStatusHtml (st : StatusResult) : string :=
  newline ++ "                        ブランチ: <strong>" ++ or_null (current st)
    ++ "</strong>" ++ newline ++ "                        "
    ++ (if truthy (tracking st) then "<br>追跡中: " ++ or_null (tracking st)
        else EmptyString)
    ++ newline ++ "                    ".

(** The listener of the window for messages of the extension. *)
Definition panel_receive (m : HostMessage) (p : Panel) : Panel :=
  match m with
  | StatusUpdate st =>
      {| repo_status := repoStatusHtml st;
         messages := messages p;
         modified_files := updateFileList (modified st) ListModified false;
         staged_files := updateFileList (staged st) ListAdded true;
         untracked_files := updateFileList (not_added st) ListUntracked false;
         commit_message_box := commit_message_box p;
         commit_date_box := commit_date_box p |}
  | CommitSuccess text =>
      let p' := shown p text "success" in
      {| repo_status := repo_status p';
         messages := messages p';
         modified_files := modified_files p';
         staged_files := staged_files p';
         untracked_files := untracked_files p';
         commit_message_box := EmptyString;
         commit_date_box := EmptyString |}
  | PushSuccess text => shown p text "success"
  | ErrorNote text => shown p text "error"
  end.

(** The panel after the events of a run: what the extension posted reaches
    the listener, what the script showed is in [messages]. *)
Definition panel_after (t : list Event) (p : Panel) : Panel :=
  fold_left
    (fun p e =>
       match e with
       | PostToPanel m => panel_receive m p
       | PanelShowMessage text kind => shown p text kind
       | _ => p
       end)
    t p.

(** ** extension.ts: the prompt of the edit command, from its inputs *)



(** ** How the shell reads a word of the filter

    [filter-branch] hands the filter to [sh].  For the syntax the filter
    uses, [sh] reads a word like this: a double quote opens a quoted part
    and the next one closes it; the parts of a word are joined; outside
    quotes the word ends at a blank or a semicolon.  A backslash, a dollar
    or a backquote is no literal text, inside quotes or outside, and outside
    quotes only letters, digits and a few marks are taken as literal here:
    a word with anything else, or with a quote left open, has no literal
    reading ([None]).  This is the shell's rule, not code of the extension. *)







(** ** More sample cases *)

Module Cases.

(** The sample binding outside a repository: the status throws. *)
Definition not_a_repository (dir : option string) : SimpleGit Sample.Repo :=
  let g := Sample.simpleGit dir in
  {| status := fun _ => inl (Sample.fatal "not a git repository");
     getRemotes := getRemotes g;
     log := log g;
     branch := branch g;
     show := show g;
     add := add g;
     commit := commit g;
     push := push g;
     reset := reset g;
     raw := raw g |}.

(** The sample binding while the index is locked: staging throws. *)
Definition locked_index (dir : option string) : SimpleGit Sample.Repo :=
  let g := Sample.simpleGit dir in
  {| status := status g;
     getRemotes := getRemotes g;
     log := log g;
     branch := branch g;
     show := show g;
     add := fun _ r => (inl (Sample.fatal "Unable to create index.lock: File exists."), r);
     commit := commit g;
     push := push g;
     reset := reset g;
     raw := raw g |}.

(** A workspace with one readable file; the diff of a file is known only
    for the modified files of the sample repository. *)
Definition viewer : DiffViewerEnv Sample.Repo :=
  {| git_diff := fun _ options r =>
       match options with
       | [f] =>
           if existsb (String.eqb f) (modified (Sample.work r))
           then inr ("@@ -1 +1 @@" ++ newline ++ "-old" ++ newline ++ "+new")
           else inl (Sample.fatal ("ambiguous argument '" ++ f ++ "'"))
       | _ => inr EmptyString
       end;
     fs_readFile := fun path _ =>
       if path =? "/work/notes.txt"
       then inr ("a < b" ++ newline ++ "done")
       else inl (ErrorObject "Error" ("ENOENT: no such file or directory, open '" ++ path ++ "'"));
     Uri_joinPath := fun ws f => ws ++ "/" ++ f |}.

Definition viewerProvider : DiffViewerProvider := {| viewerRoot := Some "/work" |}.

(** A remote whose default branch is [origin/develop]; the enumeration
    lists a branch of another remote first. *)
Definition develop_default : Sample.Repo :=
  Sample.repo ["upstream"; "origin"]
    [("upstream/main", ["a1a1a1a1a1"]);
     ("origin/develop", ["c3c3c3c3c3"; "b2b2b2b2b2"; "a1a1a1a1a1"]);
     ("origin/feature", ["a1a1a1a1a1"])]
    Sample.five.

(** One modified, one staged and one untracked file, one deleted. *)
Definition mixed : StatusResult :=
  {| current := Some "main"; tracking := Some "origin/main";
     modified := ["src/a.ts"]; staged := ["src/b.ts"]; not_added := ["notes.txt"];
     deleted := ["old.ts"]; renamed := [] |}.

(** The panel as loaded, with a message typed in. *)
Definition typed (text : string) : Panel :=
  {| repo_status := repo_status initialPanel;
     messages := [];
     modified_files := modified_files initialPanel;
     staged_files := staged_files initialPanel;
     untracked_files := untracked_files initialPanel;
     commit_message_box := text;
     commit_date_box := EmptyString |}.

(** A document with one checked file and a message. *)
Definition one_selected : PanelDocument :=
  {| checkboxes := [{| cb_value := "README.md"; cb_checked := true |}];
     commit_message := "update readme";
     commit_date := "" |}.

(** A document without any file. *)
Definition nothing_listed : PanelDocument :=
  {| checkboxes := []; commit_message := "update readme"; commit_date := "" |}.

(** The text [git log --oneline] prints for commits. *)
Definition oneline (cs : list LogEntry) : string :=
  join_lines (map (fun c => substring 0 7 (hash c) ++ " " ++ message c) cs).

(** The sample binding with the answer of the real binding to a [log] with
    [--oneline]: the option replaces the format the binding asks [git] for,
    so the binding finds none of its separators in the output and answers a
    single entry, which holds the whole output as its hash and nothing
    else. *)
Definition as_simple_git (dir : option string) : SimpleGit Sample.Repo :=
  let g := Sample.simpleGit dir in
  {| status := status g;
     getRemotes := getRemotes g;
     log := fun options r =>
       match options with
       | "--oneline" :: _ =>
           match log g options r with
           | inr cs => inr [{| hash := oneline cs; date := ""; message := "" |}]
           | inl e => inl e
           end
       | _ => log g options r
       end;
     branch := branch g;
     show := show g;
     add := add g;
     commit := commit g;
     push := push g;
     reset := reset g;
     raw := raw g |}.

(** No remote, five local commits. *)
Definition five_local : Sample.Repo := Sample.repo [] [] Sample.five.


End Cases.

(** * Properties *)

(** ** Strings *)

Lemma prefix_split (p s : string) :
  prefix p s = true <-> exists post, s = p ++ post.
Proof.
  revert s; induction p as [|c p IH]; intros s; simpl.
  - split; [intros _; exists s; reflexivity | intros _; destruct s; reflexivity].
  - destruct s as [|d s].
    + split; [discriminate | intros [post H]; discriminate].
    + simpl. destruct (ascii_dec c d) as [->|Hcd].
      * rewrite IH. split; intros [post H]; exists post.
        -- now rewrite H.
        -- now inversion H.
      * split; [discriminate | intros [post H]; injection H; congruence].
Qed.

(** [includes] finds exactly the substrings. *)
Lemma includes_split (s sub : string) :
  includes s sub = true <-> exists pre post, s = pre ++ sub ++ post.
Proof.
  induction s as [|c s IH].
  - change (includes EmptyString sub) with (prefix sub EmptyString || false).
    rewrite orb_false_r, prefix_split. split.
    + intros [post H]. exists EmptyString, post. exact H.
    + intros [pre [post H]]. destruct pre; [now exists post | discriminate].
  - change (includes (String c s) sub)
      with (prefix sub (String c s) || includes s sub).
    rewrite orb_true_iff, prefix_split, IH. split.
    + intros [[post H] | [pre [post H]]].
      * exists EmptyString, post. exact H.
      * exists (String c pre), post. simpl. now rewrite H.
    + intros [pre [post H]]. destruct pre as [|d pre]; simpl in H.
      * left. now exists post.
      * right. inversion H. now exists pre, post.
Qed.

Lemma append_assoc (a b c : string) : (a ++ b) ++ c = a ++ (b ++ c).
Proof. induction a; simpl; congruence. Qed.

Lemma append_nil_r (a : string) : a ++ EmptyString = a.
Proof. induction a; simpl; congruence. Qed.

(** The text of an error is the tail of its rendering. *)
Lemma String_of_ends_with_text (e : Thrown) :
  exists before, String_of e = before ++ error_text e.
Proof.
  destruct e as [name msg | text]; simpl.
  - destruct (name =? "") eqn:Hn.
    + now exists EmptyString.
    + destruct (msg =? "") eqn:Hm.
      * apply String.eqb_eq in Hm. subst msg. exists name.
        clear. induction name; simpl; congruence.
      * exists (name ++ ": "). clear.
        induction name; simpl; [reflexivity | congruence].
  - now exists EmptyString.
Qed.

(** ** Traces *)

Lemma git_calls_app (t1 t2 : list Event) :
  git_calls (t1 ++ t2) = (git_calls t1 ++ git_calls t2)%list.
Proof.
  induction t1 as [|e t1 IH]; simpl; [reflexivity|].
  destruct e; simpl; rewrite IH; reflexivity.
Qed.

Lemma read_only_not_mutating (c : GitCall) :
  read_only c = true -> mutating c = false.
Proof. destruct c; simpl; congruence. Qed.

Section ReadsRules.
Context {R : Type}.

Lemma Reads_ret {A : Type} (a : A) : Reads (@ret R A a).
Proof. intros r. split; [reflexivity | constructor]. Qed.

Lemma Reads_emit_note (e : Event) :
  git_calls [e] = [] -> Reads (@emit R e).
Proof.
  intros He r. split; [reflexivity|].
  unfold emit, trace; simpl snd. rewrite He. constructor.
Qed.

Lemma Reads_query {A : Type} (c : GitCall) (q : R -> Thrown + A) :
  read_only c = true -> Reads (query c q).
Proof.
  intros Hc r. split; [reflexivity|].
  unfold query, trace; simpl. constructor; [exact Hc | constructor].
Qed.

Lemma Reads_bind {A B : Type} (m : @M R A) (k : A -> M B) :
  Reads m -> (forall a, Reads (k a)) -> Reads (bind m k).
Proof.
  intros Hm Hk r. unfold bind. specialize (Hm r).
  destruct (m r) as [[[e|a] r1] t1]; unfold final_repo, trace in *; simpl in *.
  - exact Hm.
  - destruct Hm as [-> Ht1]. specialize (Hk a r).
    destruct (k a r) as [[y r2] t2]; unfold final_repo, trace in *; simpl in *.
    destruct Hk as [-> Ht2]. split; [reflexivity|].
    rewrite git_calls_app. apply Forall_app. now split.
Qed.

Lemma Reads_try {A : Type} (m : @M R A) (h : Thrown -> M A) :
  Reads m -> (forall e, Reads (h e)) -> Reads (try_catch m h).
Proof.
  intros Hm Hh r. unfold try_catch. specialize (Hm r).
  destruct (m r) as [[[e|a] r1] t1]; unfold final_repo, trace in *; simpl in *.
  - destruct Hm as [-> Ht1]. specialize (Hh e r).
    destruct (h e r) as [[y r2] t2]; unfold final_repo, trace in *; simpl in *.
    destruct Hh as [-> Ht2]. split; [reflexivity|].
    rewrite git_calls_app. apply Forall_app. now split.
  - exact Hm.
Qed.

Lemma Reads_if {A : Type} (b : bool) (m1 m2 : @M R A) :
  Reads m1 -> Reads m2 -> Reads (if b then m1 else m2).
Proof. destruct b; auto. Qed.
End ReadsRules.

Ltac reads :=
  repeat first
    [ apply Reads_ret
    | apply Reads_emit_note; reflexivity
    | apply Reads_query; reflexivity
    | apply Reads_bind; [|intros ?]
    | apply Reads_try; [|intros ?]
    | apply Reads_if
    | match goal with
      | |- Reads (match ?x with _ => _ end) => destruct x
      end ].

(** ** The resolver reads and never writes *)

Section ResolverReads.
Context {R : Type}.
Variable simpleGit : option string -> SimpleGit R.
Variable host : Host.
Variable this : GitTreeViewProvider.

Lemma unpushedCommits_Reads : Reads (unpushedCommits simpleGit this).
Proof. unfold unpushedCommits, git_getRemotes, git_log, git_branch. reads. Qed.

Lemma unpushedSection_Reads (items : list GitTreeItem) :
  Reads (unpushedSection simpleGit this items).
Proof. unfold unpushedSection, git_getRemotes, git_log, git_branch. reads. Qed.

Lemma getChildrenForElement_Reads (element : GitTreeItem) :
  Reads (getChildrenForElement simpleGit host this element).
Proof.
  unfold getChildrenForElement, git_status.
  apply Reads_bind; [apply Reads_query; reflexivity | intros st].
  repeat (apply Reads_if; [apply Reads_ret |]).
  apply Reads_if; [| apply Reads_ret].
  apply Reads_try.
  - apply Reads_bind; [apply unpushedCommits_Reads | intros; apply Reads_ret].
  - intros e. reads.
Qed.

Lemma getChildren_Reads (element : option GitTreeItem) :
  Reads (getChildren simpleGit host this element).
Proof.
  unfold getChildren.
  apply Reads_if; [apply Reads_ret |].
  destruct element as [element|]; [apply getChildrenForElement_Reads |].
  apply Reads_try; [| intros; apply Reads_ret].
  apply Reads_bind; [apply Reads_query; reflexivity | intros st].
  apply Reads_bind; [apply unpushedSection_Reads | intros; apply Reads_ret].
Qed.

(** C8.  Every run of the resolver (the root of the tree and the listing
    under any of its nodes) leaves the repository in the state it found,
    and every call it makes of the binding is a read (status, list remotes,
    log, list remote-tracking branches); none is a stage, unstage, commit,
    push or history rewrite. *)
Theorem resolve_is_read_only (element : option GitTreeItem) (r : R) :
  let run := getChildren simpleGit host this element r in
  final_repo run = r /\
  Forall (fun c => read_only c = true /\ mutating c = false)
         (git_calls (trace run)).
Proof.
  intros run. destruct (getChildren_Reads element r) as [Hrepo Hcalls].
  split; [exact Hrepo |].
  eapply Forall_impl; [| exact Hcalls].
  intros c Hc. split; [exact Hc | now apply read_only_not_mutating].
Qed.

End ResolverReads.

(** ** The fallback chain *)

Ltac open_resolver :=
  unfold getChildren, getChildrenForElement, unpushedSection, unpushedCommits,
    git_status, git_getRemotes, git_log, git_branch,
    outcome, final_repo, trace, bind, try_catch, query, emit, ret.

Ltac reduce :=
  cbv beta iota;
  cbn [nonempty length Nat.ltb Nat.leb String.eqb Ascii.eqb Bool.eqb negb
       app fst snd git_calls find].

Section Chain.
Context {R : Type}.
Variable simpleGit : option string -> SimpleGit R.
Variable host : Host.
Variable this : GitTreeViewProvider.
Hypothesis in_workspace : truthy (workspaceRoot this) = true.

Local Abbreviation git := (git_of simpleGit this).

(** C1.  With a remote configured and the query [origin/main..HEAD]
    answered, the resolver's commits are that answer, in the tool's order
    (newest first): the listing shows one item per commit in that order,
    the root announces their number (nothing when there is none), and
    the query is the last call made: no fallback is tried, even for an
    empty answer. *)
Theorem resolve_origin_main
    (element : GitTreeItem) (r : R) (st : StatusResult)
    (remotes : list string) (commits : list LogEntry) :
  contextValue element = "unpushed-commits" ->
  status git r = inr st ->
  getRemotes git r = inr remotes ->
  remotes <> [] ->
  log git ["origin/main..HEAD"] r = inr commits ->
  let resolved := unpushedCommits simpleGit this r in
  let listing := getChildren simpleGit host this (Some element) r in
  let top := getChildren simpleGit host this None r in
  outcome resolved = inr commits /\
  git_calls (trace resolved) = [GetRemotes; Log ["origin/main..HEAD"]] /\
  outcome listing = inr (map (commitItem host) commits) /\
  git_calls (trace listing) = [Status; GetRemotes; Log ["origin/main..HEAD"]] /\
  outcome top
    = inr (commitsGroup (statusItems st) "プッシュされていないコミット" (length commits)
           ++ [actionItem])%list /\
  git_calls (trace top) = [Status; GetRemotes; Log ["origin/main..HEAD"]].
Proof.
  intros Hctx Hst Hrem Hne Hmain.
  destruct remotes as [|rm remotes]; [contradiction|].
  open_resolver. rewrite in_workspace, Hctx. reduce.
  repeat (first [rewrite Hst | rewrite Hrem | rewrite Hmain]; reduce).
  repeat split; reflexivity.
Qed.

(** C6.  With a remote configured, the query against [origin/main]
    throwing and the one against [origin/master] answered, the resolver's
    commits are the answer for [origin/master..HEAD], in the tool's order. *)
Theorem resolve_origin_master
    (element : GitTreeItem) (r : R) (st : StatusResult)
    (remotes : list string) (e : Thrown) (commits : list LogEntry) :
  contextValue element = "unpushed-commits" ->
  status git r = inr st ->
  getRemotes git r = inr remotes ->
  remotes <> [] ->
  log git ["origin/main..HEAD"] r = inl e ->
  log git ["origin/master..HEAD"] r = inr commits ->
  let resolved := unpushedCommits simpleGit this r in
  let listing := getChildren simpleGit host this (Some element) r in
  let top := getChildren simpleGit host this None r in
  outcome resolved = inr commits /\
  git_calls (trace resolved)
    = [GetRemotes; Log ["origin/main..HEAD"]; Log ["origin/master..HEAD"]] /\
  outcome listing = inr (map (commitItem host) commits) /\
  git_calls (trace listing)
    = [Status; GetRemotes; Log ["origin/main..HEAD"]; Log ["origin/master..HEAD"]] /\
  outcome top
    = inr (commitsGroup (statusItems st) "プッシュされていないコミット" (length commits)
           ++ [actionItem])%list /\
  git_calls (trace top)
    = [Status; GetRemotes; Log ["origin/main..HEAD"]; Log ["origin/master..HEAD"]].
Proof.
  intros Hctx Hst Hrem Hne Hmain Hmaster.
  destruct remotes as [|rm remotes]; [contradiction|].
  open_resolver. rewrite in_workspace, Hctx. reduce.
  repeat (first [rewrite Hst | rewrite Hrem | rewrite Hmain | rewrite Hmaster]; reduce).
  repeat split; reflexivity.
Qed.

(** Without any remote the resolver asks for the log with the arguments
    [--oneline -10] and for nothing else: its commits are whatever the
    binding answers to that, also when a comparison against a remote branch
    would have succeeded. *)
Lemma resolve_without_remotes
    (element : GitTreeItem) (r : R) (st : StatusResult) (commits : list LogEntry) :
  contextValue element = "unpushed-commits" ->
  status git r = inr st ->
  getRemotes git r = inr [] ->
  log git ["--oneline"; "-10"] r = inr commits ->
  let resolved := unpushedCommits simpleGit this r in
  let listing := getChildren simpleGit host this (Some element) r in
  let top := getChildren simpleGit host this None r in
  outcome resolved = inr commits /\
  git_calls (trace resolved) = [GetRemotes; Log ["--oneline"; "-10"]] /\
  outcome listing = inr (map (commitItem host) commits) /\
  git_calls (trace listing) = [Status; GetRemotes; Log ["--oneline"; "-10"]] /\
  outcome top
    = inr (commitsGroup (statusItems st) "最新のコミット" (length commits)
           ++ [actionItem])%list /\
  git_calls (trace top) = [Status; GetRemotes; Log ["--oneline"; "-10"]].
Proof.
  intros Hctx Hst Hrem Hlog.
  open_resolver. rewrite in_workspace, Hctx. reduce.
  repeat (first [rewrite Hst | rewrite Hrem | rewrite Hlog]; reduce).
  repeat split; reflexivity.
Qed.

(** What the chain does when both comparisons throw and the enumeration
    of remote-tracking branches is answered without any name that contains
    [origin/]: it stops there with no commit; the log limited to 10 entries
    is not asked for. *)
Lemma no_origin_branch_resolves_empty
    (element : GitTreeItem) (r : R) (st : StatusResult)
    (remotes branches : list string) (e1 e2 : Thrown) :
  contextValue element = "unpushed-commits" ->
  status git r = inr st ->
  getRemotes git r = inr remotes ->
  remotes <> [] ->
  log git ["origin/main..HEAD"] r = inl e1 ->
  log git ["origin/master..HEAD"] r = inl e2 ->
  branch git ["-r"] r = inr branches ->
  (forall b, In b branches -> includes b "origin/" = false) ->
  let listing := getChildren simpleGit host this (Some element) r in
  let top := getChildren simpleGit host this None r in
  outcome listing = inr [] /\
  git_calls (trace listing)
    = [Status; GetRemotes; Log ["origin/main..HEAD"]; Log ["origin/master..HEAD"];
       Branch ["-r"]] /\
  outcome top = inr (statusItems st ++ [actionItem])%list.
Proof.
  intros Hctx Hst Hrem Hne Hmain Hmaster Hbr Hnone.
  destruct remotes as [|rm remotes]; [contradiction|].
  assert (Hfind : find (fun b => includes b "origin/") branches = None).
  { destruct (find _ branches) as [b|] eqn:Hf; [|reflexivity].
    apply find_some in Hf. destruct Hf as [Hin Hb].
    rewrite (Hnone b Hin) in Hb. discriminate. }
  open_resolver. rewrite in_workspace, Hctx. reduce.
  repeat (first [rewrite Hst | rewrite Hrem | rewrite Hmain | rewrite Hmaster
                | rewrite Hbr | rewrite Hfind]; reduce).
  repeat split; reflexivity.
Qed.

(** The fallback to the log limited to 10 entries is taken when the
    enumeration itself throws. *)
Lemma enumeration_error_resolves_recent
    (element : GitTreeItem) (r : R) (st : StatusResult)
    (remotes : list string) (e1 e2 e3 : Thrown) (commits : list LogEntry) :
  contextValue element = "unpushed-commits" ->
  status git r = inr st ->
  getRemotes git r = inr remotes ->
  remotes <> [] ->
  log git ["origin/main..HEAD"] r = inl e1 ->
  log git ["origin/master..HEAD"] r = inl e2 ->
  branch git ["-r"] r = inl e3 ->
  log git ["--oneline"; "-10"] r = inr commits ->
  let listing := getChildren simpleGit host this (Some element) r in
  outcome listing = inr (map (commitItem host) commits) /\
  git_calls (trace listing)
    = [Status; GetRemotes; Log ["origin/main..HEAD"]; Log ["origin/master..HEAD"];
       Branch ["-r"]; Log ["--oneline"; "-10"]].
Proof.
  intros Hctx Hst Hrem Hne Hmain Hmaster Hbr Hlog.
  destruct remotes as [|rm remotes]; [contradiction|].
  open_resolver. rewrite in_workspace, Hctx. reduce.
  repeat (first [rewrite Hst | rewrite Hrem | rewrite Hmain | rewrite Hmaster
                | rewrite Hbr | rewrite Hlog]; reduce).
  repeat split; reflexivity.
Qed.

(** The root of the tree, when listing the remotes throws: the log limited
    to 5 entries is asked for, and its answer is announced. *)
Lemma root_falls_back_to_five
    (r : R) (st : StatusResult) (e : Thrown) (commits : list LogEntry) :
  status git r = inr st ->
  getRemotes git r = inl e ->
  log git ["--oneline"; "-5"] r = inr commits ->
  let top := getChildren simpleGit host this None r in
  outcome top
    = inr (commitsGroup (statusItems st) "ローカルコミット" (length commits)
           ++ [actionItem])%list /\
  git_calls (trace top) = [Status; GetRemotes; Log ["--oneline"; "-5"]].
Proof.
  intros Hst Hrem Hlog.
  open_resolver. rewrite in_workspace. reduce.
  repeat (first [rewrite Hst | rewrite Hrem | rewrite Hlog]; reduce).
  repeat split; reflexivity.
Qed.

(** The root, when that last query throws too: no node for commits. *)
Lemma root_without_commits
    (r : R) (st : StatusResult) (e e' : Thrown) :
  status git r = inr st ->
  getRemotes git r = inl e ->
  log git ["--oneline"; "-5"] r = inl e' ->
  let top := getChildren simpleGit host this None r in
  outcome top = inr (statusItems st ++ [actionItem])%list.
Proof.
  intros Hst Hrem Hlog.
  open_resolver. rewrite in_workspace. reduce.
  repeat (first [rewrite Hst | rewrite Hrem | rewrite Hlog]; reduce).
  reflexivity.
Qed.

(** The listing, when listing the remotes throws: it is empty at once;
    the log limited to 5 entries is not asked for. *)
Lemma listing_gives_up
    (element : GitTreeItem) (r : R) (st : StatusResult) (e : Thrown) :
  contextValue element = "unpushed-commits" ->
  status git r = inr st ->
  getRemotes git r = inl e ->
  let listing := getChildren simpleGit host this (Some element) r in
  outcome listing = inr [] /\
  git_calls (trace listing) = [Status; GetRemotes].
Proof.
  intros Hctx Hst Hrem.
  open_resolver. rewrite in_workspace, Hctx. reduce.
  repeat (first [rewrite Hst | rewrite Hrem]; reduce).
  repeat split; reflexivity.
Qed.

(** X25.  The listing under a node lets a failure of its first call, the
    status, through to its caller, whatever the node is. *)
Lemma listing_propagates_status_error
    (element : GitTreeItem) (r : R) (e : Thrown) :
  status git r = inl e ->
  outcome (getChildren simpleGit host this (Some element) r) = inl e.
Proof.
  intros Hst.
  open_resolver. rewrite in_workspace. reduce.
  rewrite Hst. reflexivity.
Qed.

End Chain.

(** X24.  The root of the tree never throws, whatever the binding does: a
    failing status, fallback chain or last query all end in a list of
    items. *)
Lemma root_never_throws {R : Type} (simpleGit : option string -> SimpleGit R)
    (host : Host) (this : GitTreeViewProvider) (r : R) :
  exists items, outcome (getChildren simpleGit host this None r) = inr items.
Proof.
  unfold getChildren. destruct (negb (truthy (workspaceRoot this))).
  - unfold ret, outcome; simpl; eauto.
  - unfold try_catch, outcome.
    match goal with
    | |- context [match ?m r with _ => _ end] => destruct (m r) as [[[e|items] r1] t1]
    end; simpl; eauto.
Qed.

(** ** The chain on sample repositories *)

(** [origin/main] exists, HEAD is two commits ahead: the two commits,
    newest first, and nothing after the first log query. *)
Lemma resolve_origin_main_sample :
  outcome (getChildren Sample.simpleGit (Sample.host None) Sample.provider
             (Some Sample.group_node) Sample.ahead_of_main)
  = inr (map (commitItem (Sample.host None)) (firstn 2 Sample.five)).
Proof.
  refine (proj1 (proj2 (proj2
    (resolve_origin_main Sample.simpleGit (Sample.host None) Sample.provider
       eq_refl Sample.group_node Sample.ahead_of_main Sample.clean
       ["origin"] (firstn 2 Sample.five) eq_refl eq_refl eq_refl _ eq_refl)))).
  discriminate.
Defined.

(** Remotes [origin], [origin/main] absent, [origin/master] present, HEAD
    three commits ahead: those three commits, newest first. *)
Lemma resolve_origin_master_sample :
  outcome (getChildren Sample.simpleGit (Sample.host None) Sample.provider
             (Some Sample.group_node) Sample.ahead_of_master)
  = inr (map (commitItem (Sample.host None))
           [Sample.entry "e5e5e5e5e5" "five"; Sample.entry "d4d4d4d4d4" "four";
            Sample.entry "c3c3c3c3c3" "three"]).
Proof.
  refine (proj1 (proj2 (proj2
    (resolve_origin_master Sample.simpleGit (Sample.host None) Sample.provider
       eq_refl Sample.group_node Sample.ahead_of_master Sample.clean
       ["origin"]
       (Sample.fatal "ambiguous argument 'origin/main..HEAD': unknown revision")
       (firstn 3 Sample.five) eq_refl eq_refl eq_refl _ eq_refl eq_refl)))).
  discriminate.
Defined.

(** C2.  A repository with the remote [upstream], no [origin/main], no
    [origin/master] and the single remote-tracking branch
    [upstream/develop]: both comparisons throw, the enumeration is answered
    and holds no name with [origin/], the local history has five commits and
    the log limited to 10 entries would give them; the resolver gives no
    commit, and the root announces none. *)
Theorem no_origin_branch_gives_nothing :
  let git := git_of Sample.simpleGit Sample.provider in
  let r := Sample.upstream_only in
  getRemotes git r = inr ["upstream"] /\
  (exists e, log git ["origin/main..HEAD"] r = inl e) /\
  (exists e, log git ["origin/master..HEAD"] r = inl e) /\
  branch git ["-r"] r = inr ["upstream/develop"] /\
  includes "upstream/develop" "origin/" = false /\
  log git ["--oneline"; "-10"] r = inr Sample.five /\
  outcome (unpushedCommits Sample.simpleGit Sample.provider r) = inr [] /\
  outcome (getChildren Sample.simpleGit (Sample.host None) Sample.provider
             (Some Sample.group_node) r) = inr [] /\
  git_calls (trace (getChildren Sample.simpleGit (Sample.host None) Sample.provider
                      (Some Sample.group_node) r))
  = [Status; GetRemotes; Log ["origin/main..HEAD"]; Log ["origin/master..HEAD"];
     Branch ["-r"]].
Proof.
  cbv zeta. repeat split; try reflexivity; eexists; reflexivity.
Qed.

(** C5.  A repository without remotes and with five commits, through a
    binding that answers [log] with [--oneline] as the real binding does:
    the only log query is the one with [--oneline -10], the binding's answer
    is one entry holding the printed text, and so the listing is a single
    item, labelled with the first seven characters of that text, and the
    root announces one commit; the five commits are not listed. *)
Theorem oneline_log_is_one_entry :
  let git := git_of Cases.as_simple_git Sample.provider in
  let r := Cases.five_local in
  let top := getChildren Cases.as_simple_git (Sample.host None) Sample.provider None r in
  let listing := getChildren Cases.as_simple_git (Sample.host None) Sample.provider
                   (Some Sample.group_node) r in
  getRemotes git r = inr [] /\
  Sample.history r = Sample.five /\
  git_calls (trace listing) = [Status; GetRemotes; Log ["--oneline"; "-10"]] /\
  log git ["--oneline"; "-10"] r
  = inr [{| hash := Cases.oneline Sample.five; date := ""; message := "" |}] /\
  (exists item, outcome listing = inr [item] /\ label item = "e5e5e5e ") /\
  outcome top
  = inr [new_GitTreeItem "ブランチ: main" NoneState "branch" None None;
         new_GitTreeItem "最新のコミット (1)" Collapsed "unpushed-commits" None None;
         actionItem].
Proof.
  cbv zeta. repeat split; try reflexivity.
  eexists. split; reflexivity.
Qed.

(** C7.  A repository whose remotes cannot be listed while its history of
    five commits can be read: the root falls back to the log limited to 5
    entries and announces five commits; the listing under that very node is
    empty, and the log limited to 5 entries is never asked for there. *)
Theorem listing_skips_the_last_fallback :
  let git := git_of Sample.simpleGit Sample.provider in
  let r := Sample.broken_config in
  let top := getChildren Sample.simpleGit (Sample.host None) Sample.provider None r in
  let listing := getChildren Sample.simpleGit (Sample.host None) Sample.provider
                   (Some Sample.group_node) r in
  (exists e, getRemotes git r = inl e) /\
  log git ["--oneline"; "-5"] r = inr Sample.five /\
  outcome top
  = inr [new_GitTreeItem "ブランチ: main" NoneState "branch" None None;
         Sample.group_node; actionItem] /\
  git_calls (trace top) = [Status; GetRemotes; Log ["--oneline"; "-5"]] /\
  outcome listing = inr [] /\
  git_calls (trace listing) = [Status; GetRemotes].
Proof.
  cbv zeta. repeat split; try reflexivity; eexists; reflexivity.
Qed.

(** ** The commit composer *)

Section Composer.
Context {R : Type}.
Variable simpleGit : option string -> SimpleGit R.
Variable host : Host.

(** C3.  A click on the commit button while no file is selected is
    rejected by the panel itself: the only effect is a message of kind
    [error] shown to the user; nothing is posted to the extension, the
    binding is not called at all (neither add nor commit), and the
    repository and the provider stay as they were. *)
Theorem empty_selection_is_rejected
    (this : CommitEditorProvider) (doc : PanelDocument) (r : R) :
  getSelectedFiles doc = [] ->
  let run := click simpleGit host this (commitBtn_click host doc) r in
  (exists text, trace run = [PanelShowMessage text "error"]) /\
  git_calls (trace run) = [] /\
  existsb is_add_or_commit (git_calls (trace run)) = false /\
  final_repo run = r /\
  outcome run = inr this.
Proof.
  intros Hsel. unfold commitBtn_click. rewrite Hsel.
  destruct (String_trim host (commit_message doc) =? ""); cbn;
    (split; [eexists; reflexivity | repeat split; reflexivity]).
Qed.

(** X20.  The button that commits every listed file is rejected by the
    panel when no file is listed: one error message, nothing posted, no call
    of the binding, the repository unchanged. *)
Lemma empty_list_is_rejected
    (this : CommitEditorProvider) (doc : PanelDocument) (r : R) :
  getAllFiles doc = [] ->
  let run := click simpleGit host this (commitAllBtn_click host doc) r in
  (exists text, trace run = [PanelShowMessage text "error"]) /\
  git_calls (trace run) = [] /\
  final_repo run = r.
Proof.
  intros Hall. unfold commitAllBtn_click. rewrite Hall.
  destruct (String_trim host (commit_message doc) =? ""); cbn;
    (split; [eexists; reflexivity | repeat split; reflexivity]).
Qed.

(** X19.  A commit message posted by either commit button of the panel
    always carries at least one file. *)
Lemma posted_commit_has_files (doc : PanelDocument)
    (commitMessage : string) (files : list string) (commitDate : option string) :
  commitBtn_click host doc = postMessage (MsgCommit commitMessage files commitDate)
  \/ commitAllBtn_click host doc = postMessage (MsgCommit commitMessage files commitDate) ->
  files <> [].
Proof.
  unfold commitBtn_click, commitAllBtn_click.
  intros [H | H];
    destruct (String_trim host (commit_message doc) =? ""); try discriminate;
    match type of H with
    | context [(length ?l =? 0)%nat] => destruct l eqn:Hl
    end; simpl in H; try discriminate;
    inversion H; discriminate.
Qed.

(** The check lives in the panel only: [handleCommit] itself, handed an
    empty list, skips the staging and still asks for the commit. *)
Lemma handleCommit_without_files
    (this : CommitEditorProvider) (commitMessage : string) (r : R) :
  let run := handleCommit simpleGit host this commitMessage [] None r in
  exists rest, git_calls (trace run) = Commit commitMessage None :: rest.
Proof.
  unfold handleCommit, git_commit, trace, bind, try_catch, exec, ret, emit.
  cbn [nonempty length Nat.ltb Nat.leb truthy].
  destruct (commit (simpleGit (boundTo this)) commitMessage None r) as [[e|[]] r1];
    cbv beta iota.
  - eexists. reflexivity.
  - destruct (handleGetStatus simpleGit host this r1) as [[[e|p] r2] t2];
      eexists; reflexivity.
Qed.

End Composer.

(** A panel with one unchecked file. *)
Lemma empty_selection_is_rejected_sample :
  trace (click Sample.simpleGit (Sample.host None) new_CommitEditorProvider
           (commitBtn_click (Sample.host None) Sample.nothing_selected)
           Sample.ahead_of_main)
  = [PanelShowMessage "コミットするファイルを選択してください" "error"]
  /\ git_calls (trace (click Sample.simpleGit (Sample.host None) new_CommitEditorProvider
           (commitBtn_click (Sample.host None) Sample.nothing_selected)
           Sample.ahead_of_main)) = [].
Proof.
  split; [reflexivity |].
  exact (proj1 (proj2
    (empty_selection_is_rejected Sample.simpleGit (Sample.host None)
       new_CommitEditorProvider Sample.nothing_selected Sample.ahead_of_main eq_refl))).
Defined.

(** ** The commit-timestamp rewriter *)

Ltac open_command :=
  unfold editCommitDateCommand, askInputBox, toISOString, git_show, git_raw,
    outcome, final_repo, trace, bind, try_catch, query, exec, emit, ret, throw.

Ltac crack :=
  repeat (cbv beta iota;
          match goal with
          | |- context [match ?x with _ => _ end] =>
              lazymatch x with
              | context [match _ with _ => _ end] => fail
              | _ => destruct x eqn:?
              end
          end).

Section Rewriter.
Context {R : Type}.
Variable simpleGit : option string -> SimpleGit R.
Variable host : Host.

(** What a run of the command looks like once the prompt has been shown:
    before the prompt at most one query (the date of the commit, when the
    caller gave none); after an answer that is absent or empty, nothing;
    after any other answer, the rewrite request and then one message, of
    success or of error. *)
Lemma after_the_prompt
    (commitHash : string) (currentDate : option string) (r : R)
    (options : InputBoxOptions) (answer : option string) :
  let run := editCommitDateCommand simpleGit host commitHash currentDate r in
  In (InputBoxShown options answer) (trace run) ->
  exists ws,
    workspaceFolder host = Some ws /\
    let before :=
      if truthy currentDate then []
      else [Git (Show ["--format=%ci"; "-s"; commitHash])] in
    if truthy answer then
      let request := rewrite_request commitHash (or_null answer) in
      let reply := raw (simpleGit (Some ws)) request r in
      final_repo run = snd reply /\
      trace run
      = (before ++ [InputBoxShown options answer; Git (Raw request)]
           ++ match fst reply with
              | inl e => [ErrorMessage ("コミット時間編集エラー: " ++ String_of e)]
              | inr _ =>
                  [TreeRefresh;
                   InformationMessage
                     ("コミット " ++ substring 0 7 commitHash ++ " の時間を更新しました")]
              end)%list
    else
      final_repo run = r /\
      outcome run = inr tt /\
      trace run = (before ++ [InputBoxShown options answer])%list.
Proof.
  open_command. crack; cbn [app fst snd In]; intros Hin;
    repeat match goal with
           | H : _ \/ _ |- _ => destruct H as [H | H]
           | H : False |- _ => destruct H
           | H : Git _ = InputBoxShown _ _ |- _ => discriminate H
           | H : ErrorMessage _ = InputBoxShown _ _ |- _ => discriminate H
           | H : TreeRefresh = InputBoxShown _ _ |- _ => discriminate H
           | H : InformationMessage _ = InputBoxShown _ _ |- _ => discriminate H
           | H : InputBoxShown _ _ = InputBoxShown _ _ |- _ =>
               injection H as <- <-
           end;
    cbv zeta; cbn [truthy or_null] in *;
    try match goal with
        | H1 : (?s =? "") = _, H2 : negb (?s =? "") = _ |- _ =>
            rewrite H1 in H2; discriminate H2
        end;
    try discriminate;
    (eexists; split; [reflexivity |]);
    repeat match goal with
           | H : raw _ _ _ = _ |- _ => rewrite H
           end;
    cbn [fst snd app];
    repeat split; reflexivity.
Qed.







(** C10.  When the user cancels the prompt or answers with the empty
    string, the command returns there: the prompt is the last event of the
    run, no rewrite and no other changing call has been made, and the
    repository is the one the command started with. *)
Theorem cancelled_prompt_rewrites_nothing
    (commitHash : string) (currentDate : option string) (r : R)
    (options : InputBoxOptions) (answer : option string) :
  let run := editCommitDateCommand simpleGit host commitHash currentDate r in
  In (InputBoxShown options answer) (trace run) ->
  answer = None \/ answer = Some "" ->
  outcome run = inr tt /\
  final_repo run = r /\
  filter is_rewrite (git_calls (trace run)) = [] /\
  filter mutating (git_calls (trace run)) = [] /\
  exists before, trace run = (before ++ [InputBoxShown options answer])%list.
Proof.
  intros run Hin Hanswer.
  destruct (after_the_prompt commitHash currentDate r options answer Hin)
    as [ws [Hws Hshape]].
  cbv zeta in Hshape.
  assert (Hfalsy : truthy answer = false) by (destruct Hanswer; subst; reflexivity).
  rewrite Hfalsy in Hshape. destruct Hshape as [Hrepo [Hout Htrace]].
  fold run in Hrepo, Hout, Htrace.
  repeat split; try assumption.
  - rewrite Htrace. destruct (truthy currentDate); reflexivity.
  - rewrite Htrace. destruct (truthy currentDate); reflexivity.
  - eexists. exact Htrace.
Qed.

(** Without an open workspace the command does nothing at all. *)
Lemma no_workspace_no_effect (commitHash : string) (currentDate : option string) (r : R) :
  workspaceFolder host = None ->
  editCommitDateCommand simpleGit host commitHash currentDate r = (inr tt, r, []).
Proof.
  intros Hws. unfold editCommitDateCommand. rewrite Hws. reflexivity.
Qed.

End Rewriter.




(** The user cancels: the sample repository is untouched. *)
Lemma cancelled_prompt_rewrites_nothing_sample :
  final_repo (editCommitDateCommand Sample.simpleGit (Sample.host None)
                "c3c3c3c3c3" (Some "2024-05-01 10:00:00") Sample.ahead_of_main)
  = Sample.ahead_of_main.
Proof.
  refine (proj1 (proj2
    (cancelled_prompt_rewrites_nothing Sample.simpleGit (Sample.host None)
       "c3c3c3c3c3" (Some "2024-05-01 10:00:00") Sample.ahead_of_main
       _ None _ _))).
  - left. reflexivity.
  - left. reflexivity.
Defined.


(** * More of the code *)

(** ** The diff viewer *)

Lemma replace_all_app (c : ascii) (by_ a b : string) :
  replace_all c by_ (a ++ b) = replace_all c by_ a ++ replace_all c by_ b.
Proof.
  induction a as [|d a IH]; simpl; [reflexivity|].
  destruct (Ascii.eqb d c); rewrite IH.
  - now rewrite append_assoc.
  - reflexivity.
Qed.

(** Escaping works on each part of a text by itself. *)
Lemma escapeHtml_app (a b : string) :
  escapeHtml (a ++ b) = escapeHtml a ++ escapeHtml b.
Proof.
  unfold escapeHtml. now rewrite !replace_all_app.
Qed.

(** What one character becomes. *)
Lemma escapeHtml_cons (c : ascii) (s : string) :
  escapeHtml (String c s)
  = (if Ascii.eqb c "&" then "&amp;"
     else if Ascii.eqb c "<" then "&lt;"
     else if Ascii.eqb c ">" then "&gt;"
     else if Ascii.eqb c (ascii_of_nat 34) then "&quot;"
     else if Ascii.eqb c "'" then "&#39;"
     else String c EmptyString) ++ escapeHtml s.
Proof.
  change (String c s) with (String c EmptyString ++ s).
  rewrite escapeHtml_app. f_equal.
  unfold escapeHtml. simpl.
  destruct (Ascii.eqb c "&") eqn:E1; [reflexivity|]. simpl.
  destruct (Ascii.eqb c "<") eqn:E2; [reflexivity|]. simpl.
  destruct (Ascii.eqb c ">") eqn:E3; [reflexivity|]. simpl.
  destruct (Ascii.eqb c (ascii_of_nat 34)) eqn:E4; [reflexivity|]. simpl.
  destruct (Ascii.eqb c "'") eqn:E5; reflexivity.
Qed.

Lemma list_ascii_app (a b : string) :
  list_ascii_of_string (a ++ b) = (list_ascii_of_string a ++ list_ascii_of_string b)%list.
Proof. induction a; simpl; congruence. Qed.

(** X1.  The escaped text holds none of the characters [<], [>], the
    double quote and the single quote, whatever the text was. *)
Theorem escapeHtml_no_markup (text : string) (ch : ascii) :
  In ch (list_ascii_of_string (escapeHtml text)) ->
  ch <> "<"%char /\ ch <> ">"%char /\ ch <> ascii_of_nat 34 /\ ch <> "'"%char.
Proof.
  induction text as [|c s IH]; [intros []|].
  rewrite escapeHtml_cons, list_ascii_app, in_app_iff.
  intros [H | H]; [| exact (IH H)].
  destruct (Ascii.eqb c "&") eqn:E1;
    [| destruct (Ascii.eqb c "<") eqn:E2;
       [| destruct (Ascii.eqb c ">") eqn:E3;
          [| destruct (Ascii.eqb c (ascii_of_nat 34)) eqn:E4;
             [| destruct (Ascii.eqb c "'") eqn:E5]]]];
    simpl in H.
  all: repeat match goal with
              | H : _ \/ _ |- _ => destruct H as [H | H]
              | H : False |- _ => destruct H
              end.
  all: subst ch; try (repeat split; discriminate).
  apply Ascii.eqb_neq in E2, E3, E4, E5. repeat split; assumption.
Qed.

(** X2.  Escaping loses nothing: two texts with the same escaped form are
    the same text.  The ampersand is replaced first, so the entities written
    by the later replacements are never escaped again. *)
Theorem escapeHtml_injective (s1 s2 : string) :
  escapeHtml s1 = escapeHtml s2 -> s1 = s2.
Proof.
  revert s2. induction s1 as [|c1 s1 IH]; intros [|c2 s2].
  - reflexivity.
  - rewrite escapeHtml_cons.
    destruct (Ascii.eqb c2 "&"); [discriminate|].
    destruct (Ascii.eqb c2 "<"); [discriminate|].
    destruct (Ascii.eqb c2 ">"); [discriminate|].
    destruct (Ascii.eqb c2 (ascii_of_nat 34)); [discriminate|].
    destruct (Ascii.eqb c2 "'"); discriminate.
  - rewrite escapeHtml_cons.
    destruct (Ascii.eqb c1 "&"); [discriminate|].
    destruct (Ascii.eqb c1 "<"); [discriminate|].
    destruct (Ascii.eqb c1 ">"); [discriminate|].
    destruct (Ascii.eqb c1 (ascii_of_nat 34)); [discriminate|].
    destruct (Ascii.eqb c1 "'"); discriminate.
  - rewrite !escapeHtml_cons. intros H.
    assert (c1 = c2 /\ escapeHtml s1 = escapeHtml s2) as [-> Hs].
    { destruct (Ascii.eqb_spec c1 "&") as [-> | N1];
        [| destruct (Ascii.eqb_spec c1 "<") as [-> | N2];
           [| destruct (Ascii.eqb_spec c1 ">") as [-> | N3];
              [| destruct (Ascii.eqb_spec c1 (ascii_of_nat 34)) as [-> | N4];
                 [| destruct (Ascii.eqb_spec c1 "'") as [-> | N5]]]]];
      (destruct (Ascii.eqb_spec c2 "&") as [-> | M1];
        [| destruct (Ascii.eqb_spec c2 "<") as [-> | M2];
           [| destruct (Ascii.eqb_spec c2 ">") as [-> | M3];
              [| destruct (Ascii.eqb_spec c2 (ascii_of_nat 34)) as [-> | M4];
                 [| destruct (Ascii.eqb_spec c2 "'") as [-> | M5]]]]]);
      simpl in H; try discriminate H; split; congruence.
    }
    f_equal. exact (IH s2 Hs).
Qed.

Lemma split_lines_cons (s : string) : exists l ls, split_lines s = l :: ls.
Proof.
  induction s as [|c s [l [ls IH]]]; simpl; [eauto|].
  destruct (Ascii.eqb c LF); [eauto|]. rewrite IH. eauto.
Qed.

Lemma split_lines_prepend (a b : string) :
  ~ In LF (list_ascii_of_string a) ->
  split_lines (a ++ b)
  = match split_lines b with
    | l :: ls => (a ++ l) :: ls
    | [] => [a]
    end.
Proof.
  induction a as [|c a IH]; simpl; intros Ha.
  - destruct (split_lines_cons b) as [l [ls ->]]. reflexivity.
  - destruct (Ascii.eqb_spec c LF) as [-> | _]; [tauto|].
    rewrite IH by tauto.
    destruct (split_lines_cons b) as [l [ls ->]]. reflexivity.
Qed.

Lemma split_lines_single (a : string) :
  ~ In LF (list_ascii_of_string a) -> split_lines a = [a].
Proof.
  intros Ha. rewrite <- (append_nil_r a) at 1.
  rewrite split_lines_prepend by exact Ha. simpl. now rewrite append_nil_r.
Qed.

Lemma split_lines_line (a b : string) :
  ~ In LF (list_ascii_of_string a) ->
  split_lines (a ++ String LF b) = a :: split_lines b.
Proof.
  intros Ha. rewrite split_lines_prepend by exact Ha.
  simpl. now rewrite append_nil_r.
Qed.

Lemma split_lines_clean (s : string) :
  Forall (fun l => ~ In LF (list_ascii_of_string l)) (split_lines s).
Proof.
  induction s as [|c s IH]; simpl.
  - constructor; [intros [] | constructor].
  - destruct (Ascii.eqb_spec c LF) as [-> | Hc].
    + constructor; [intros [] | exact IH].
    + destruct (split_lines s) as [|l ls]; simpl.
      * constructor; [| constructor]. simpl. intros [H | []]. congruence.
      * inversion IH as [|? ? Hl Hls]; subst. constructor; [| exact Hls].
        simpl. intros [H | H]; [congruence | exact (Hl H)].
Qed.

(** Splitting into lines and joining again gives the text back. *)
Lemma join_split (s : string) : join_lines (split_lines s) = s.
Proof.
  induction s as [|c s IH]; simpl; [reflexivity|].
  destruct (Ascii.eqb_spec c LF) as [-> | Hc].
  - destruct (split_lines_cons s) as [l [ls E]]. rewrite E in *.
    simpl in *. now rewrite IH.
  - destruct (split_lines_cons s) as [l [ls E]]. rewrite E in *.
    destruct ls; simpl in *; now rewrite <- IH.
Qed.

(** Joining lines that hold no newline and splitting again gives the lines
    back. *)
Lemma split_join (ls : list string) :
  ls <> [] ->
  Forall (fun l => ~ In LF (list_ascii_of_string l)) ls ->
  split_lines (join_lines ls) = ls.
Proof.
  induction ls as [|l ls IH]; [congruence|]. intros _ Hall.
  inversion Hall as [|? ? Hl Hls]; subst.
  destruct ls as [|l' ls].
  - simpl. now apply split_lines_single.
  - change (join_lines (l :: l' :: ls)) with (l ++ String LF (join_lines (l' :: ls))).
    rewrite split_lines_line by exact Hl.
    f_equal. apply IH; [discriminate | exact Hls].
Qed.

Lemma colorLine_clean (l : string) :
  ~ In LF (list_ascii_of_string l) -> ~ In LF (list_ascii_of_string (colorLine l)).
Proof.
  intros Hl. unfold colorLine.
  destruct (startsWith l "+"); [| destruct (startsWith l "-"); [| destruct (startsWith l "@@")]];
    rewrite !list_ascii_app, !in_app_iff; vm_compute; intuition discriminate.
Qed.

Lemma split_lines_colorDiff (diffText : string) :
  split_lines (colorDiff diffText) = map colorLine (split_lines diffText).
Proof.
  unfold colorDiff. apply split_join.
  - destruct (split_lines_cons diffText) as [l [ls ->]]. discriminate.
  - apply Forall_map. eapply Forall_impl; [| apply split_lines_clean].
    intros l. apply colorLine_clean.
Qed.

(** X4.  [colorDiff] works line by line: the lines of its result are the
    lines of the text, each wrapped by [colorLine], in the same order and in
    the same number; a span never runs over a line end. *)
Theorem colorDiff_line_by_line (diffText : string) :
  split_lines (colorDiff diffText) = map colorLine (split_lines diffText) /\
  length (split_lines (colorDiff diffText)) = length (split_lines diffText).
Proof.
  rewrite split_lines_colorDiff. split; [reflexivity | apply length_map].
Qed.

Lemma escapeHtml_head_clean (c : ascii) :
  c <> LF ->
  ~ In LF (list_ascii_of_string
             (if Ascii.eqb c "&" then "&amp;"
              else if Ascii.eqb c "<" then "&lt;"
              else if Ascii.eqb c ">" then "&gt;"
              else if Ascii.eqb c (ascii_of_nat 34) then "&quot;"
              else if Ascii.eqb c "'" then "&#39;"
              else String c EmptyString)).
Proof.
  intros Hc.
  destruct (Ascii.eqb c "&"); [vm_compute; intuition discriminate|].
  destruct (Ascii.eqb c "<"); [vm_compute; intuition discriminate|].
  destruct (Ascii.eqb c ">"); [vm_compute; intuition discriminate|].
  destruct (Ascii.eqb c (ascii_of_nat 34)); [vm_compute; intuition discriminate|].
  destruct (Ascii.eqb c "'"); [vm_compute; intuition discriminate|].
  simpl. intros [H | []]. congruence.
Qed.

Lemma split_lines_escapeHtml (text : string) :
  split_lines (escapeHtml text) = map escapeHtml (split_lines text).
Proof.
  induction text as [|c s IH]; [reflexivity|].
  rewrite escapeHtml_cons.
  simpl split_lines at 2.
  destruct (Ascii.eqb_spec c LF) as [-> | Hc].
  - change (split_lines (String LF (escapeHtml s)) = map escapeHtml (EmptyString :: split_lines s)).
    simpl. now rewrite IH.
  - rewrite split_lines_prepend by (apply escapeHtml_head_clean; exact Hc).
    rewrite IH. destruct (split_lines_cons s) as [l [ls ->]].
    simpl map. now rewrite escapeHtml_cons.
Qed.

(** X3.  Escaping neither joins nor breaks lines: the lines of the escaped
    text are the escaped lines of the text, so the two have as many lines. *)
Theorem escapeHtml_keeps_lines (text : string) :
  split_lines (escapeHtml text) = map escapeHtml (split_lines text) /\
  length (split_lines (escapeHtml text)) = length (split_lines text).
Proof.
  rewrite split_lines_escapeHtml. split; [reflexivity | apply length_map].
Qed.

Lemma prefix_nil (s : string) : prefix EmptyString s = true.
Proof. destruct s; reflexivity. Qed.

Ltac by_head c :=
  destruct (Ascii.eqb_spec c "&") as [-> | ?];
    [| destruct (Ascii.eqb_spec c "<") as [-> | ?];
       [| destruct (Ascii.eqb_spec c ">") as [-> | ?];
          [| destruct (Ascii.eqb_spec c (ascii_of_nat 34)) as [-> | ?];
             [| destruct (Ascii.eqb_spec c "'") as [-> | ?]]]]].

Lemma prefix_cons (a c : ascii) (p s : string) :
  prefix (String a p) (String c s) = if Ascii.eqb a c then prefix p s else false.
Proof.
  simpl. destruct (ascii_dec a c) as [-> | N].
  - now rewrite Ascii.eqb_refl.
  - apply Ascii.eqb_neq in N. now rewrite N.
Qed.

Lemma prefix_escape_one (c0 : ascii) (l : string) :
  c0 = "+"%char \/ c0 = "-"%char \/ c0 = "@"%char ->
  prefix (String c0 EmptyString) (escapeHtml l) = prefix (String c0 EmptyString) l.
Proof.
  intros Hc0. destruct l as [|c l]; [reflexivity|].
  rewrite escapeHtml_cons.
  by_head c;
    try (destruct Hc0 as [-> | [-> | ->]]; reflexivity).
  repeat match goal with
         | H : c <> _ |- _ => apply Ascii.eqb_neq in H; rewrite H
         end.
  change (String c EmptyString ++ escapeHtml l) with (String c (escapeHtml l)).
  rewrite !prefix_cons, !prefix_nil. reflexivity.
Qed.

Lemma prefix_escape_two (l : string) :
  prefix "@@" (escapeHtml l) = prefix "@@" l.
Proof.
  destruct l as [|c l]; [reflexivity|].
  rewrite escapeHtml_cons.
  by_head c; try reflexivity.
  repeat match goal with
         | H : c <> _ |- _ => apply Ascii.eqb_neq in H; rewrite H
         end.
  change (String c EmptyString ++ escapeHtml l) with (String c (escapeHtml l)).
  rewrite !prefix_cons. destruct (Ascii.eqb "@" c); [| reflexivity].
  apply (prefix_escape_one "@"). auto.
Qed.

(** X5.  Escaping a line does not change how it is coloured: the span
    [colorLine] opens for the escaped line is the one it opens for the line
    itself (added for [+], removed for [-], info for [@@], context
    otherwise). *)
Theorem colorLine_after_escape (line : string) :
  exists opening,
    colorLine line = opening ++ line ++ "</span>" /\
    colorLine (escapeHtml line) = opening ++ escapeHtml line ++ "</span>".
Proof.
  unfold colorLine, startsWith.
  rewrite !prefix_escape_one by auto. rewrite prefix_escape_two.
  destruct (prefix "+" line); [| destruct (prefix "-" line); [| destruct (prefix "@@" line)]].
  - exists ("<span class=" ++ dquote ++ "diff-line-added" ++ dquote ++ ">"). split; reflexivity.
  - exists ("<span class=" ++ dquote ++ "diff-line-removed" ++ dquote ++ ">"). split; reflexivity.
  - exists ("<span class=" ++ dquote ++ "diff-line-info" ++ dquote ++ ">"). split; reflexivity.
  - exists ("<span class=" ++ dquote ++ "diff-line-context" ++ dquote ++ ">"). split; reflexivity.
Qed.

Lemma decimal_clean_uint (u : Decimal.uint) :
  ~ In LF (list_ascii_of_string (NilEmpty.string_of_uint u)).
Proof.
  induction u; simpl; try tauto; intros [H | H]; try (apply IHu; exact H); discriminate H.
Qed.

Lemma fold_plus_from (ls : list string) (d : string) :
  fold_left (fun diff line => diff ++ "+" ++ line ++ newline) ls d
  = d ++ fold_left (fun diff line => diff ++ "+" ++ line ++ newline) ls EmptyString.
Proof.
  revert d. induction ls as [|l ls IH]; intros d; cbn [fold_left].
  - now rewrite append_nil_r.
  - rewrite IH. rewrite (IH (EmptyString ++ "+" ++ l ++ newline)).
    now rewrite append_assoc.
Qed.

Lemma split_fold_plus (ls : list string) :
  Forall (fun l => ~ In LF (list_ascii_of_string l)) ls ->
  split_lines (fold_left (fun diff line => diff ++ "+" ++ line ++ newline) ls EmptyString)
  = (map (String "+") ls ++ [EmptyString])%list.
Proof.
  induction ls as [|l ls IH]; intros Hall; [reflexivity|].
  inversion Hall as [|? ? Hl Hls]; subst.
  cbn [fold_left]. rewrite fold_plus_from.
  set (rest := fold_left _ ls EmptyString) in *.
  change ((EmptyString ++ "+" ++ l ++ newline) ++ rest)
    with (String "+" ((l ++ String LF EmptyString) ++ rest)).
  rewrite append_assoc.
  change (String "+" (l ++ String LF EmptyString ++ rest)) with (String "+" l ++ String LF rest).
  rewrite split_lines_line.
  - subst rest. rewrite IH by exact Hls. reflexivity.
  - simpl. intros [H | H]; [discriminate H | exact (Hl H)].
Qed.

Ltac clean_line :=
  rewrite ?list_ascii_app, ?in_app_iff; simpl;
  intuition (try discriminate;
             try match goal with
                 | H : In LF (list_ascii_of_string (decimal _)) |- _ =>
                     exact (decimal_clean_uint _ H)
                 end).

Lemma split_lines_createNewFileDiff (fileName content : string) :
  ~ In LF (list_ascii_of_string fileName) ->
  split_lines (createNewFileDiff fileName content)
  = ([("diff --git a/" ++ fileName ++ " b/" ++ fileName)%string;
      "new file mode 100644";
      "index 0000000..1234567";
      "--- /dev/null";
      ("+++ b/" ++ fileName)%string;
      ("@@ -0,0 +1," ++ decimal (length (split_lines content)) ++ " @@")%string]
     ++ map (String "+") (split_lines content) ++ [EmptyString])%list.
Proof.
  intros Hname. unfold createNewFileDiff. cbv zeta.
  rewrite fold_plus_from.
  set (body := fold_left _ (split_lines content) EmptyString).
  set (n := decimal (length (split_lines content))).
  replace (_ ++ body)
    with (("diff --git a/" ++ fileName ++ " b/" ++ fileName) ++ String LF
          ("new file mode 100644" ++ String LF
           ("index 0000000..1234567" ++ String LF
            ("--- /dev/null" ++ String LF
             (("+++ b/" ++ fileName) ++ String LF
              (("@@ -0,0 +1," ++ n ++ " @@") ++ String LF body))))))
    by (rewrite !append_assoc; reflexivity).
  rewrite split_lines_line by clean_line.
  rewrite split_lines_line by clean_line.
  rewrite split_lines_line by clean_line.
  rewrite split_lines_line by clean_line.
  rewrite split_lines_line by clean_line.
  rewrite split_lines_line by (subst n; clean_line).
  subst body. rewrite split_fold_plus by apply split_lines_clean.
  reflexivity.
Qed.

(** X6.  For a file name without a newline, the diff made for a new file
    has six header lines, then one line per line of the content, each the
    content line behind a [+], then one empty line; the count in the hunk
    header is the number of those content lines.  An empty content counts as
    one (empty) line, and a content ending in a newline counts the empty
    line after it. *)
Theorem createNewFileDiff_lines (fileName content : string) :
  ~ In LF (list_ascii_of_string fileName) ->
  let lines := split_lines content in
  split_lines (createNewFileDiff fileName content)
  = ([("diff --git a/" ++ fileName ++ " b/" ++ fileName)%string;
      "new file mode 100644";
      "index 0000000..1234567";
      "--- /dev/null";
      ("+++ b/" ++ fileName)%string;
      ("@@ -0,0 +1," ++ decimal (length lines) ++ " @@")%string]
     ++ map (String "+") lines ++ [EmptyString])%list /\
  1 <= length lines /\
  length (split_lines (createNewFileDiff fileName content)) = 7 + length lines.
Proof.
  intros Hname lines. subst lines.
  rewrite (split_lines_createNewFileDiff fileName content Hname).
  repeat split.
  - destruct (split_lines_cons content) as [l [ls ->]]. simpl. apply le_n_S, Nat.le_0_l.
  - rewrite !length_app, length_map. simpl. rewrite Nat.add_1_r. reflexivity.
Qed.

Lemma colorLine_plus (x : string) :
  colorLine (String "+" x)
  = "<span class=" ++ dquote ++ "diff-line-added" ++ dquote ++ ">+" ++ x ++ "</span>".
Proof.
  unfold colorLine, startsWith. rewrite prefix_cons, prefix_nil. reflexivity.
Qed.

(** X7.  What the viewer shows for a new file, line by line: the six header
    lines coloured as any diff line is, then every line of the content as an
    added line with its text escaped, in the order of the file, then an empty
    context line. *)
Theorem new_file_rendering (fileName content : string) :
  ~ In LF (list_ascii_of_string fileName) ->
  split_lines (colorDiff (escapeHtml (createNewFileDiff fileName content)))
  = (map (fun h => colorLine (escapeHtml h))
         [("diff --git a/" ++ fileName ++ " b/" ++ fileName)%string;
          "new file mode 100644";
          "index 0000000..1234567";
          "--- /dev/null";
          ("+++ b/" ++ fileName)%string;
          ("@@ -0,0 +1," ++ decimal (length (split_lines content)) ++ " @@")%string]
     ++ map (fun l => ("<span class=" ++ dquote ++ "diff-line-added" ++ dquote ++ ">+"
                        ++ escapeHtml l ++ "</span>")%string)
            (split_lines content)
     ++ [("<span class=" ++ dquote ++ "diff-line-context" ++ dquote ++ "></span>")%string])%list.
Proof.
  intros Hname.
  rewrite split_lines_colorDiff, split_lines_escapeHtml, map_map.
  rewrite (split_lines_createNewFileDiff fileName content Hname).
  rewrite !map_app, map_map. f_equal. f_equal.
  apply map_ext. intros l. rewrite escapeHtml_cons. apply colorLine_plus.
Qed.

Section Viewer.
Context {R : Type}.
Variable env : DiffViewerEnv R.
Variable host : Host.

(** X8.  When the diff of a modified or staged file throws, the panel gets
    the error page, built from the file name and the rendering of what was
    thrown behind a fixed prefix; the tool's text is part of the page. *)
Theorem diff_failure_page
    (this : DiffViewerProvider) (fileName : string) (fileStatus : FileStatus)
    (r : R) (e : Thrown) :
  fileStatus <> Untracked ->
  git_diff env (viewerRoot this)
    (match fileStatus with
     | Staged => ["--cached"; fileName]
     | _ => [fileName]
     end) r = inl e ->
  let html := panel_html (showFileDiff env host this fileName fileStatus r) in
  html = getErrorContent fileName ("差分の取得に失敗しました: " ++ String_of e) /\
  exists before after,
    html = before ++ error_text e ++ after.
Proof.
  intros Hst Hdiff. cbv zeta.
  assert (H : panel_html (showFileDiff env host this fileName fileStatus r)
              = getErrorContent fileName ("差分の取得に失敗しました: " ++ String_of e)).
  { unfold showFileDiff, diffContentFor. cbn [panel_html].
    destruct fileStatus; [| | contradiction]; rewrite Hdiff; reflexivity. }
  split; [exact H |]. rewrite H. unfold getErrorContent.
  destruct (String_of_ends_with_text e) as [pre Hpre]. rewrite Hpre.
  exists (errorPage_1 ++ fileName ++ errorPage_2 ++ "差分の取得に失敗しました: " ++ pre), errorPage_3.
  rewrite !append_assoc. reflexivity.
Qed.

(** X9.  An untracked file never gets the error page.  The page is the diff
    page: of the diff made from the file's text when the file can be read, of
    the text of the failure when reading throws, and of the empty diff when
    no workspace folder is open. *)
Theorem untracked_page (this : DiffViewerProvider) (fileName : string) (r : R) :
  let html := panel_html (showFileDiff env host this fileName Untracked r) in
  (exists diffContent, html = getWebviewContent host fileName Untracked diffContent) /\
  (forall ws content,
     workspaceFolder host = Some ws ->
     fs_readFile env (Uri_joinPath env ws fileName) r = inr content ->
     html = getWebviewContent host fileName Untracked (createNewFileDiff fileName content)) /\
  (forall ws e,
     workspaceFolder host = Some ws ->
     fs_readFile env (Uri_joinPath env ws fileName) r = inl e ->
     html = getWebviewContent host fileName Untracked
              ("ファイルの読み取りに失敗しました: " ++ String_of e)) /\
  (workspaceFolder host = None ->
   html = getWebviewContent host fileName Untracked EmptyString).
Proof.
  cbv zeta. unfold showFileDiff, diffContentFor. cbn [panel_html].
  repeat split.
  - destruct (workspaceFolder host) as [ws|]; [| eexists; reflexivity].
    destruct (fs_readFile env (Uri_joinPath env ws fileName) r); eexists; reflexivity.
  - intros ws content Hws Hread. rewrite Hws, Hread. reflexivity.
  - intros ws e Hws Hread. rewrite Hws, Hread. reflexivity.
  - intros Hws. rewrite Hws. reflexivity.
Qed.
End Viewer.

(** ** More on the tree view *)

Section MoreChain.
Context {R : Type}.
Variable simpleGit : option string -> SimpleGit R.
Variable host : Host.
Variable this : GitTreeViewProvider.
Hypothesis in_workspace : truthy (workspaceRoot this) = true.

Local Abbreviation git := (git_of simpleGit this).

(** X21.  Whenever the fallback chain ends with commits and not with a
    throw, the root and the listing agree: the listing holds one item per
    commit, in order, and the number the root announces is the number of
    those commits. *)
Theorem root_and_listing_agree
    (element : GitTreeItem) (r : R) (st : StatusResult) (commits : list LogEntry) :
  contextValue element = "unpushed-commits" ->
  status git r = inr st ->
  outcome (unpushedCommits simpleGit this r) = inr commits ->
  outcome (getChildren simpleGit host this (Some element) r)
  = inr (map (commitItem host) commits) /\
  exists caption,
    outcome (getChildren simpleGit host this None r)
    = inr (commitsGroup (statusItems st) caption (length commits) ++ [actionItem])%list.
Proof.
  intros Hctx Hst. open_resolver. rewrite in_workspace, Hctx. reduce.
  rewrite Hst. reduce.
  crack; cbn [fst snd]; intros H; try discriminate H;
    injection H as <-; (split; [reflexivity | eexists; reflexivity]).
Qed.

Lemma find_first {A : Type} (p : A -> bool) (before after : list A) (x : A) :
  Forall (fun y => p y = false) before -> p x = true ->
  find p (before ++ x :: after) = Some x.
Proof.
  induction before as [|y before IH]; simpl; intros Hb Hx.
  - now rewrite Hx.
  - inversion Hb as [|? ? Hy Hrest]; subst. rewrite Hy. now apply IH.
Qed.

(** X22.  When both fixed comparisons throw, the branch compared against
    is the first one of the enumeration whose name holds [origin/]: the
    commits are the answer for that branch, and when that comparison throws
    they are the answer of the log limited to 10 entries. *)
Theorem resolve_first_origin_branch
    (element : GitTreeItem) (r : R) (st : StatusResult)
    (remotes before after : list string) (b : string) (e1 e2 : Thrown) :
  contextValue element = "unpushed-commits" ->
  status git r = inr st ->
  getRemotes git r = inr remotes ->
  remotes <> [] ->
  log git ["origin/main..HEAD"] r = inl e1 ->
  log git ["origin/master..HEAD"] r = inl e2 ->
  branch git ["-r"] r = inr (before ++ b :: after)%list ->
  Forall (fun x => includes x "origin/" = false) before ->
  includes b "origin/" = true ->
  let listing := getChildren simpleGit host this (Some element) r in
  (forall commits,
     log git [b ++ "..HEAD"] r = inr commits ->
     outcome listing = inr (map (commitItem host) commits) /\
     git_calls (trace listing)
     = [Status; GetRemotes; Log ["origin/main..HEAD"]; Log ["origin/master..HEAD"];
        Branch ["-r"]; Log [b ++ "..HEAD"]]) /\
  (forall e3 commits,
     log git [b ++ "..HEAD"] r = inl e3 ->
     log git ["--oneline"; "-10"] r = inr commits ->
     outcome listing = inr (map (commitItem host) commits) /\
     git_calls (trace listing)
     = [Status; GetRemotes; Log ["origin/main..HEAD"]; Log ["origin/master..HEAD"];
        Branch ["-r"]; Log [b ++ "..HEAD"]; Log ["--oneline"; "-10"]]).
Proof.
  intros Hctx Hst Hrem Hne Hmain Hmaster Hbr Hbefore Hb.
  destruct remotes as [|rm remotes]; [contradiction|].
  pose proof (find_first (fun x => includes x "origin/") before after b Hbefore Hb) as Hfind.
  split.
  - intros commits Hlog.
    open_resolver. rewrite in_workspace, Hctx. reduce.
    repeat (first [rewrite Hst | rewrite Hrem | rewrite Hmain | rewrite Hmaster
                  | rewrite Hbr | rewrite Hfind | rewrite Hlog]; reduce).
    split; reflexivity.
  - intros e3 commits Hlog Hrecent.
    open_resolver. rewrite in_workspace, Hctx. reduce.
    repeat (first [rewrite Hst | rewrite Hrem | rewrite Hmain | rewrite Hmaster
                  | rewrite Hbr | rewrite Hfind | rewrite Hlog | rewrite Hrecent]; reduce).
    split; reflexivity.
Qed.

(** X23.  Whatever the fallback chain does, the root of a repository whose
    status can be read is: the items of the status, then at most one node for
    commits, which is never announced with a count of zero, then the item
    that opens the commit editor. *)
Theorem root_shape (r : R) (st : StatusResult) :
  status git r = inr st ->
  exists middle,
    outcome (getChildren simpleGit host this None r)
    = inr (statusItems st ++ middle ++ [actionItem])%list /\
    (middle = [] \/
     exists caption n,
       0 < n /\
       middle = [new_GitTreeItem (caption ++ " (" ++ decimal n ++ ")") Collapsed
                   "unpushed-commits" None None]).
Proof.
  intros Hst. open_resolver. rewrite in_workspace. reduce. rewrite Hst. reduce.
  crack; cbn [fst snd]; unfold commitsGroup;
    try (exists []; split; [reflexivity | left; reflexivity]);
    match goal with
    | |- context [(0 <? ?n)%nat] =>
        destruct (Nat.ltb_spec 0 n);
          [ eexists; split;
              [rewrite <- app_assoc; reflexivity
              | right; eexists; eexists; split; [eassumption | reflexivity]]
          | exists []; split; [reflexivity | left; reflexivity] ]
    end.
Qed.

End MoreChain.

(** ** More on the commit composer *)

Ltac open_editor :=
  unfold click, onDidReceiveMessage, handleCommit, handlePush, handleGetStatus,
    git_status, git_add, git_commit, git_push,
    outcome, final_repo, trace, bind, try_catch, query, exec, emit, ret.

Section Editor.
Context {R : Type}.
Variable simpleGit : option string -> SimpleGit R.
Variable host : Host.

(** X14.  No message of the panel makes the listener of the extension
    throw: every handler ends normally, with the provider as it was or bound
    to the workspace folder. *)
Theorem handlers_never_throw (this : CommitEditorProvider) (m : PanelMessage) (r : R) :
  outcome (onDidReceiveMessage simpleGit host this m r) = inr this \/
  outcome (onDidReceiveMessage simpleGit host this m r) = inr (rebound host this).
Proof.
  destruct m; open_editor; crack; cbn [fst snd]; auto.
Qed.

(** X15.  When staging the files throws, the commit is not attempted: the
    run is the one call of [add] and one error note with the message of what
    was thrown; no success note is posted and the status is not asked for. *)
Theorem staging_failure_stops_the_commit
    (this : CommitEditorProvider) (commitMessage : string) (files : list string)
    (commitDate : option string) (r r1 : R) (e : Thrown) :
  files <> [] ->
  add (simpleGit (boundTo this)) files r = (inl e, r1) ->
  handleCommit simpleGit host this commitMessage files commitDate r
  = (inr this, r1,
     [Git (Add files);
      PostToPanel (ErrorNote ("コミットエラー: " ++ message_or_unknown e))]).
Proof.
  intros Hne Hadd. destruct files as [|f files]; [contradiction|].
  open_editor. cbn [nonempty length Nat.ltb Nat.leb]. rewrite Hadd. reflexivity.
Qed.

(** X17.  A push request makes exactly one call, the push, and posts
    exactly one note: of success, or of error with the message of what was
    thrown.  The status is not refreshed and the provider is unchanged. *)
Theorem push_reports_once (this : CommitEditorProvider) (r : R) :
  let reply := push (simpleGit (boundTo this)) r in
  handlePush simpleGit this r
  = (inr this, snd reply,
     [Git Push;
      PostToPanel
        (match fst reply with
         | inr _ => PushSuccess "プッシュが成功しました！"
         | inl e => ErrorNote ("プッシュエラー: " ++ message_or_unknown e)
         end)]).
Proof.
  open_editor. destruct (push (simpleGit (boundTo this)) r) as [[e|[]] r1]; reflexivity.
Qed.

(** X18.  With a workspace folder open, a status request binds the provider
    to that folder whether or not the status query throws, makes that one
    query and posts one message: the status, or an error note. *)
Theorem status_request_binds_to_workspace
    (this : CommitEditorProvider) (ws : string) (r : R) :
  workspaceFolder host = Some ws ->
  let run := handleGetStatus simpleGit host this r in
  outcome run = inr {| boundTo := Some ws |} /\
  final_repo run = r /\
  git_calls (trace run) = [Status] /\
  trace run
  = [Git Status;
     PostToPanel
       (match status (simpleGit (Some ws)) r with
        | inr st => StatusUpdate st
        | inl e => ErrorNote ("Gitステータスエラー: " ++ message_or_unknown e)
        end)].
Proof.
  intros Hws. open_editor. unfold rebound. rewrite Hws.
  destruct (status (simpleGit (Some ws)) r); repeat split; reflexivity.
Qed.

(** Without a workspace folder a status request calls nothing. *)
Lemma status_request_without_workspace (this : CommitEditorProvider) (r : R) :
  workspaceFolder host = None ->
  handleGetStatus simpleGit host this r
  = (inr this, r, [PostToPanel (ErrorNote "ワークスペースフォルダが見つかりません")]).
Proof.
  intros Hws. open_editor. rewrite Hws. reflexivity.
Qed.

(** panel *)
Lemma boxes_updateFileList (files : list string) (k : ListKind) (isStaged : bool) :
  boxes (updateFileList files k isStaged)
  = map (fun f => {| cb_value := f; cb_checked := isStaged |}) files.
Proof.
  unfold updateFileList. destruct files; [reflexivity|].
  cbn [length Nat.eqb boxes]. rewrite map_map. reflexivity.
Qed.

Lemma selected_of_constant (b : bool) (files : list string) :
  map cb_value (filter cb_checked
                  (map (fun f => {| cb_value := f; cb_checked := b |}) files))
  = if b then files else [].
Proof.
  induction files as [|f files IH]; simpl; [destruct b; reflexivity|].
  destruct b; simpl; [now rewrite IH | exact IH].
Qed.

(** The document after a status update: the staged files are the checked
    ones; the listed files are the modified, staged and untracked ones. *)
Lemma document_after_refresh (st : StatusResult) (p : Panel) :
  let doc := document_of (panel_receive (StatusUpdate st) p) in
  getSelectedFiles doc = staged st /\
  getAllFiles doc = (modified st ++ staged st ++ not_added st)%list /\
  commit_message doc = commit_message_box p /\
  commit_date doc = commit_date_box p.
Proof.
  cbv zeta. unfold getSelectedFiles, getAllFiles, document_of, panel_receive.
  cbn [checkboxes commit_message commit_date modified_files staged_files untracked_files
       commit_message_box commit_date_box].
  rewrite !boxes_updateFileList. repeat split.
  - rewrite !filter_app, !map_app, !selected_of_constant. simpl. apply app_nil_r.
  - rewrite !map_app, !map_map. simpl. now rewrite !map_id.
Qed.

(** X10.  Right after a status update, with a message typed in, the commit
    button sends exactly the staged files, and shows the selection error when
    nothing is staged. *)
Theorem commit_after_refresh (st : StatusResult) (p : Panel) :
  let doc := document_of (panel_receive (StatusUpdate st) p) in
  String_trim host (commit_message_box p) <> "" ->
  commitBtn_click host doc
  = match staged st with
    | [] => showMessage "コミットするファイルを選択してください" "error"
    | _ :: _ =>
        postMessage (MsgCommit (String_trim host (commit_message_box p)) (staged st)
                       (or_absent (commit_date_box p)))
    end.
Proof.
  intros doc Hmsg.
  destruct (document_after_refresh st p) as [Hsel [_ [Hm Hd]]]. fold doc in Hsel, Hm, Hd.
  unfold commitBtn_click. rewrite Hsel, Hm, Hd.
  apply String.eqb_neq in Hmsg. rewrite Hmsg.
  destruct (staged st); reflexivity.
Qed.

(** X11.  Right after a status update, with a message typed in, the button
    that commits everything sends the modified, staged and untracked files,
    in that order, and shows an error when there is none.  A file is in the
    request exactly when the status lists it as modified, staged or
    untracked: the lists of deleted and renamed files are not looked at, so
    a file listed only there is not sent. *)
Theorem commit_all_after_refresh (st : StatusResult) (p : Panel) :
  let doc := document_of (panel_receive (StatusUpdate st) p) in
  String_trim host (commit_message_box p) <> "" ->
  commitAllBtn_click host doc
  = match (modified st ++ staged st ++ not_added st)%list with
    | [] => showMessage "コミットするファイルがありません" "error"
    | files =>
        postMessage (MsgCommit (String_trim host (commit_message_box p)) files
                       (or_absent (commit_date_box p)))
    end /\
  forall commitMessage files commitDate,
    commitAllBtn_click host doc = postMessage (MsgCommit commitMessage files commitDate) ->
    forall f,
      In f files <-> In f (modified st) \/ In f (staged st) \/ In f (not_added st).
Proof.
  intros doc Hmsg.
  destruct (document_after_refresh st p) as [_ [Hall [Hm Hd]]]. fold doc in Hall, Hm, Hd.
  unfold commitAllBtn_click. rewrite Hall, Hm, Hd.
  apply String.eqb_neq in Hmsg. rewrite Hmsg.
  destruct (modified st ++ staged st ++ not_added st)%list as [|f0 fs] eqn:Hfiles.
  - split; [reflexivity |]. intros ? ? ? H. discriminate H.
  - split; [reflexivity |]. intros commitMessage files commitDate H f.
    cbn [length Nat.eqb] in H. injection H as _ <- _.
    rewrite <- Hfiles, !in_app_iff. reflexivity.
Qed.

(** X13.  A commit message for some files, when staging, committing and
    the status query all succeed: the calls are add, commit and status in
    that order, the date is passed on only when it is a non-empty text, the
    provider ends bound to the workspace folder, and the panel ends with the
    success message shown, both input fields empty and its lists drawn from
    the fresh status. *)
Theorem successful_commit_round_trip
    (this : CommitEditorProvider) (p : Panel) (ws commitMessage : string)
    (files : list string) (commitDate : option string)
    (r r1 r2 : R) (st : StatusResult) :
  workspaceFolder host = Some ws ->
  files <> [] ->
  add (simpleGit (boundTo this)) files r = (inr tt, r1) ->
  commit (simpleGit (boundTo this)) commitMessage
    (if truthy commitDate then commitDate else None) r1 = (inr tt, r2) ->
  status (simpleGit (Some ws)) r2 = inr st ->
  let run := click simpleGit host this
               (postMessage (MsgCommit commitMessage files commitDate)) r in
  outcome run = inr {| boundTo := Some ws |} /\
  final_repo run = r2 /\
  git_calls (trace run)
  = [Add files; Commit commitMessage (if truthy commitDate then commitDate else None);
     Status] /\
  panel_after (trace run) p
  = panel_receive (StatusUpdate st)
      (panel_receive (CommitSuccess "コミットが成功しました！") p).
Proof.
  intros Hws Hne Hadd Hcommit Hst. destruct files as [|f files]; [contradiction|].
  open_editor. unfold rebound. rewrite Hws.
  cbn [nonempty length Nat.ltb Nat.leb]. rewrite Hadd. cbv beta iota.
  destruct (truthy commitDate); rewrite Hcommit; cbv beta iota; rewrite Hst;
    repeat split; reflexivity.
Qed.

(** X12.  A success note empties the message and the date fields and leaves
    the checkboxes alone, so a second click on either commit button is
    rejected for its missing message. *)
Theorem commit_success_clears_the_form (p : Panel) (text : string) :
  String_trim host EmptyString = EmptyString ->
  let p' := panel_receive (CommitSuccess text) p in
  checkboxes (document_of p') = checkboxes (document_of p) /\
  commitBtn_click host (document_of p')
  = showMessage "コミットメッセージを入力してください" "error" /\
  commitAllBtn_click host (document_of p')
  = showMessage "コミットメッセージを入力してください" "error".
Proof.
  intros Htrim. cbv zeta. unfold commitBtn_click, commitAllBtn_click.
  cbn [panel_receive shown document_of commit_message commit_message_box].
  rewrite Htrim. repeat split; reflexivity.
Qed.

(** X16.  Handed an empty list of files, [handleCommit] never stages: its
    first call is the commit (with the date only when it is a non-empty
    text), and the only call that can follow is the status query. *)
Theorem commit_without_files
    (this : CommitEditorProvider) (commitMessage : string)
    (commitDate : option string) (r : R) :
  let run := handleCommit simpleGit host this commitMessage [] commitDate r in
  exists rest,
    git_calls (trace run)
    = Commit commitMessage (if truthy commitDate then commitDate else None) :: rest /\
    (rest = [] \/ rest = [Status]).
Proof.
  open_editor. cbn [nonempty length Nat.ltb Nat.leb].
  crack; cbn [app fst snd git_calls]; eexists; split; try reflexivity; auto.
Qed.

End Editor.

(** ** More on the commands *)

Ltac open_stage :=
  unfold stageFileCommand, unstageFileCommand, git_add, git_reset,
    outcome, final_repo, trace, bind, try_catch, query, exec, emit, ret.

Section MoreCommands.
Context {R : Type}.
Variable simpleGit : option string -> SimpleGit R.
Variable host : Host.

(** X26.  The stage and unstage commands make one call each ([add] of the
    file, [reset HEAD] of the file); the tree is refreshed and a success
    message shown only when the call succeeds, otherwise one error message
    with the rendering of what was thrown is shown. *)
Theorem stage_reports_once (fileName ws : string) (r : R) :
  workspaceFolder host = Some ws ->
  let reply := add (simpleGit (Some ws)) [fileName] r in
  stageFileCommand simpleGit host fileName r
  = (inr tt, snd reply,
     Git (Add [fileName])
     :: match fst reply with
        | inr _ => [TreeRefresh; InformationMessage (fileName ++ " をステージしました")]
        | inl e => [ErrorMessage ("ステージエラー: " ++ String_of e)]
        end) /\
  let reply' := reset (simpleGit (Some ws)) ["HEAD"; fileName] r in
  unstageFileCommand simpleGit host fileName r
  = (inr tt, snd reply',
     Git (Reset ["HEAD"; fileName])
     :: match fst reply' with
        | inr _ => [TreeRefresh; InformationMessage (fileName ++ " のステージを解除しました")]
        | inl e => [ErrorMessage ("ステージ解除エラー: " ++ String_of e)]
        end).
Proof.
  intros Hws. open_stage. rewrite Hws. split.
  - destruct (add (simpleGit (Some ws)) [fileName] r) as [[e|[]] r1]; reflexivity.
  - destruct (reset (simpleGit (Some ws)) ["HEAD"; fileName] r) as [[e|[]] r1]; reflexivity.
Qed.

(** X27.  When the date handed to the command is not a valid date, the
    command stops before the prompt: the only effect is one error message
    for the [RangeError] of [toISOString]; the binding is not called. *)
Theorem unreadable_date_blocks_the_edit
    (commitHash ws currentDate : string) (r : R) :
  workspaceFolder host = Some ws ->
  known currentDate = true ->
  Date_valid host currentDate = false ->
  editCommitDateCommand simpleGit host commitHash (Some currentDate) r
  = (inr tt, r, [ErrorMessage "コミット時間編集エラー: RangeError: Invalid time value"]).
Proof.
  intros Hws Hknown Hvalid.
  assert (Ht : truthy (Some currentDate) = true).
  { unfold known in Hknown. apply andb_prop in Hknown. simpl. tauto. }
  open_command. rewrite Hws, Ht. cbn [or_null]. cbv beta iota.
  rewrite Hknown. cbv beta iota. rewrite Hvalid. reflexivity.
Qed.

(** X28.  Every run of the command ends normally, shows at most one prompt
    and makes at most one call that can change the repository; a run without
    a prompt makes none and leaves the repository as it was. *)
Theorem edit_changes_at_most_once
    (commitHash : string) (currentDate : option string) (r : R) :
  let run := editCommitDateCommand simpleGit host commitHash currentDate r in
  outcome run = inr tt /\
  length (filter mutating (git_calls (trace run))) <= 1 /\
  length (filter (fun e => match e with InputBoxShown _ _ => true | _ => false end)
            (trace run)) <= 1 /\
  ((forall options answer, ~ In (InputBoxShown options answer) (trace run)) ->
   final_repo run = r /\ filter mutating (git_calls (trace run)) = []).
Proof.
  open_command. crack; cbn [app fst snd git_calls filter mutating length In];
    (split; [reflexivity |]); (split; [auto |]); (split; [auto |]);
    intros Hnone; first [split; reflexivity | exfalso; eapply Hnone; eauto 6].
Qed.

(** X29.  When no date is handed over and looking it up throws, the command
    goes on: the prompt is shown with an empty initial value and the text for
    an unavailable date. *)
Theorem date_lookup_failure_still_prompts
    (commitHash ws : string) (currentDate : option string) (r : R) (e : Thrown) :
  workspaceFolder host = Some ws ->
  truthy currentDate = false ->
  show (simpleGit (Some ws)) ["--format=%ci"; "-s"; commitHash] r = inl e ->
  let options :=
    {| prompt := "新しいコミット時間を入力してください (YYYY-MM-DD HH:MM:SS)"
                 ++ newline ++ "現在の時間: " ++ unavailable;
       placeHolder := "2024-01-01 12:00:00";
       value := EmptyString |} in
  exists rest,
    trace (editCommitDateCommand simpleGit host commitHash currentDate r)
    = (Git (Show ["--format=%ci"; "-s"; commitHash])
       :: InputBoxShown options (showInputBox host options) :: rest).
Proof.
  intros Hws Ht Hshow. open_command. rewrite Hws, Ht. cbv beta iota zeta.
  rewrite Hshow. cbv beta iota.
  change (known unavailable) with false. cbv beta iota.
  crack; cbn [app fst snd]; eexists; reflexivity.
Qed.

End MoreCommands.

(** ** The added properties on sample cases *)

Lemma escapeHtml_no_markup_sample : "a"%char <> "<"%char.
Proof.
  refine (proj1 (escapeHtml_no_markup "a<b" "a" _)).
  left. reflexivity.
Defined.

Lemma escapeHtml_injective_sample : "a<b" = "a<b".
Proof.
  apply (escapeHtml_injective "a<b" "a<b"). reflexivity.
Defined.

(** Two lines of content: nine lines of diff. *)
Lemma createNewFileDiff_lines_sample :
  length (split_lines (createNewFileDiff "notes.txt" ("a < b" ++ newline ++ "done"))) = 9.
Proof.
  refine (proj2 (proj2
    (createNewFileDiff_lines "notes.txt" ("a < b" ++ newline ++ "done") _))).
  vm_compute. intuition discriminate.
Defined.

(** The first line of the content, as shown. *)
Lemma new_file_rendering_sample :
  nth 6 (split_lines (colorDiff (escapeHtml
           (createNewFileDiff "notes.txt" ("a < b" ++ newline ++ "done")))))
      EmptyString
  = "<span class=" ++ dquote ++ "diff-line-added" ++ dquote ++ ">+a &lt; b</span>".
Proof.
  rewrite (new_file_rendering "notes.txt" ("a < b" ++ newline ++ "done")).
  - reflexivity.
  - vm_compute. intuition discriminate.
Defined.

Lemma diff_failure_page_sample :
  panel_html (showFileDiff Cases.viewer (Sample.host None) Cases.viewerProvider
                "gone.txt" Modified Sample.ahead_of_main)
  = getErrorContent "gone.txt"
      "差分の取得に失敗しました: Error: fatal: ambiguous argument 'gone.txt'".
Proof.
  refine (proj1
    (diff_failure_page Cases.viewer (Sample.host None) Cases.viewerProvider
       "gone.txt" Modified Sample.ahead_of_main
       (Sample.fatal "ambiguous argument 'gone.txt'") _ eq_refl)).
  discriminate.
Defined.

Lemma commit_after_refresh_sample :
  commitBtn_click (Sample.host None)
    (document_of (panel_receive (StatusUpdate Cases.mixed) (Cases.typed "fix typo")))
  = postMessage (MsgCommit "fix typo" ["src/b.ts"] None).
Proof.
  apply (commit_after_refresh (Sample.host None) Cases.mixed (Cases.typed "fix typo")).
  discriminate.
Defined.

Lemma commit_all_after_refresh_sample :
  commitAllBtn_click (Sample.host None)
    (document_of (panel_receive (StatusUpdate Cases.mixed) (Cases.typed "fix typo")))
  = postMessage (MsgCommit "fix typo" ["src/a.ts"; "src/b.ts"; "notes.txt"] None).
Proof.
  refine (proj1
    (commit_all_after_refresh (Sample.host None) Cases.mixed (Cases.typed "fix typo") _)).
  discriminate.
Defined.

Lemma commit_success_clears_the_form_sample :
  commitBtn_click (Sample.host None)
    (document_of (panel_receive (CommitSuccess "done") (Cases.typed "fix typo")))
  = showMessage "コミットメッセージを入力してください" "error".
Proof.
  refine (proj1 (proj2
    (commit_success_clears_the_form (Sample.host None) (Cases.typed "fix typo") "done" _))).
  reflexivity.
Defined.

Lemma successful_commit_round_trip_sample :
  git_calls (trace (click Sample.simpleGit (Sample.host None) new_CommitEditorProvider
                      (postMessage (MsgCommit "fix typo" ["README.md"] None))
                      Sample.ahead_of_main))
  = [Add ["README.md"]; Commit "fix typo" None; Status].
Proof.
  refine (proj1 (proj2 (proj2
    (successful_commit_round_trip Sample.simpleGit (Sample.host None)
       new_CommitEditorProvider initialPanel "/work" "fix typo" ["README.md"] None
       Sample.ahead_of_main _ _ _ eq_refl _ eq_refl eq_refl eq_refl)))).
  discriminate.
Defined.

Lemma staging_failure_stops_the_commit_sample :
  git_calls (trace (handleCommit Cases.locked_index (Sample.host None)
                      new_CommitEditorProvider "fix typo" ["README.md"] None
                      Sample.ahead_of_main))
  = [Add ["README.md"]].
Proof.
  rewrite (staging_failure_stops_the_commit Cases.locked_index (Sample.host None)
             new_CommitEditorProvider "fix typo" ["README.md"] None
             Sample.ahead_of_main Sample.ahead_of_main
             (Sample.fatal "Unable to create index.lock: File exists.")).
  - reflexivity.
  - discriminate.
  - reflexivity.
Defined.

Lemma status_request_binds_to_workspace_sample :
  outcome (handleGetStatus Sample.simpleGit (Sample.host None) new_CommitEditorProvider
             Sample.ahead_of_main)
  = inr {| boundTo := Some "/work" |}.
Proof.
  exact (proj1
    (status_request_binds_to_workspace Sample.simpleGit (Sample.host None)
       new_CommitEditorProvider "/work" Sample.ahead_of_main eq_refl)).
Defined.

Lemma posted_commit_has_files_sample : ["README.md"] <> [].
Proof.
  apply (posted_commit_has_files (Sample.host None) Cases.one_selected
           "update readme" ["README.md"] None).
  left. reflexivity.
Defined.

Lemma empty_list_is_rejected_sample :
  git_calls (trace (click Sample.simpleGit (Sample.host None) new_CommitEditorProvider
                      (commitAllBtn_click (Sample.host None) Cases.nothing_listed)
                      Sample.ahead_of_main))
  = [].
Proof.
  exact (proj1 (proj2
    (empty_list_is_rejected Sample.simpleGit (Sample.host None)
       new_CommitEditorProvider Cases.nothing_listed Sample.ahead_of_main eq_refl))).
Defined.

Lemma root_and_listing_agree_sample :
  outcome (getChildren Sample.simpleGit (Sample.host None) Sample.provider
             (Some Sample.group_node) Sample.ahead_of_master)
  = inr (map (commitItem (Sample.host None)) (firstn 3 Sample.five)).
Proof.
  exact (proj1
    (root_and_listing_agree Sample.simpleGit (Sample.host None) Sample.provider
       eq_refl Sample.group_node Sample.ahead_of_master Sample.clean
       (firstn 3 Sample.five) eq_refl eq_refl eq_refl)).
Defined.

(** The enumeration lists [upstream/main] first; the comparison goes
    against [origin/develop]. *)
Lemma resolve_first_origin_branch_sample :
  git_calls (trace (getChildren Sample.simpleGit (Sample.host None) Sample.provider
                      (Some Sample.group_node) Cases.develop_default))
  = [Status; GetRemotes; Log ["origin/main..HEAD"]; Log ["origin/master..HEAD"];
     Branch ["-r"]; Log ["origin/develop..HEAD"]].
Proof.
  refine (proj2 (proj1
    (resolve_first_origin_branch Sample.simpleGit (Sample.host None) Sample.provider
       eq_refl Sample.group_node Cases.develop_default Sample.clean
       ["upstream"; "origin"] ["upstream/main"] ["origin/feature"] "origin/develop"
       (Sample.fatal "ambiguous argument 'origin/main..HEAD': unknown revision")
       (Sample.fatal "ambiguous argument 'origin/master..HEAD': unknown revision")
       eq_refl eq_refl eq_refl _ eq_refl eq_refl eq_refl _ eq_refl)
    (firstn 2 Sample.five) eq_refl)).
  - discriminate.
  - repeat constructor.
Defined.

Lemma root_shape_sample :
  exists middle,
    outcome (getChildren Sample.simpleGit (Sample.host None) Sample.provider None
               Sample.ahead_of_main)
    = inr (statusItems Sample.clean ++ middle ++ [actionItem])%list /\
    (middle = [] \/
     exists caption n,
       0 < n /\
       middle = [new_GitTreeItem (caption ++ " (" ++ decimal n ++ ")") Collapsed
                   "unpushed-commits" None None]).
Proof.
  exact (root_shape Sample.simpleGit (Sample.host None) Sample.provider eq_refl
           Sample.ahead_of_main Sample.clean eq_refl).
Defined.

Lemma listing_propagates_status_error_sample :
  outcome (getChildren Cases.not_a_repository (Sample.host None) Sample.provider
             (Some Sample.group_node) Sample.ahead_of_main)
  = inl (Sample.fatal "not a git repository").
Proof.
  exact (listing_propagates_status_error Cases.not_a_repository (Sample.host None)
           Sample.provider eq_refl Sample.group_node Sample.ahead_of_main
           (Sample.fatal "not a git repository") eq_refl).
Defined.

Lemma stage_reports_once_sample :
  trace (stageFileCommand Sample.simpleGit (Sample.host None) "README.md"
           Sample.ahead_of_main)
  = [Git (Add ["README.md"]); TreeRefresh;
     InformationMessage "README.md をステージしました"].
Proof.
  pose proof (proj1
    (stage_reports_once Sample.simpleGit (Sample.host None) "README.md" "/work"
       Sample.ahead_of_main eq_refl)) as H.
  rewrite H. reflexivity.
Defined.

Lemma unreadable_date_blocks_the_edit_sample :
  trace (editCommitDateCommand Sample.simpleGit (Sample.host (Some "2024-01-01 12:00:00"))
           "c3c3c3c3c3" (Some "yesterday") Sample.ahead_of_main)
  = [ErrorMessage "コミット時間編集エラー: RangeError: Invalid time value"].
Proof.
  rewrite (unreadable_date_blocks_the_edit Sample.simpleGit
             (Sample.host (Some "2024-01-01 12:00:00")) "c3c3c3c3c3" "/work" "yesterday"
             Sample.ahead_of_main eq_refl eq_refl eq_refl).
  reflexivity.
Defined.

Lemma date_lookup_failure_still_prompts_sample :
  exists rest,
    trace (editCommitDateCommand Sample.simpleGit (Sample.host None) "ffffffffff" None
             Sample.ahead_of_main)
    = (Git (Show ["--format=%ci"; "-s"; "ffffffffff"])
       :: InputBoxShown
            {| prompt := "新しいコミット時間を入力してください (YYYY-MM-DD HH:MM:SS)"
                         ++ newline ++ "現在の時間: " ++ unavailable;
               placeHolder := "2024-01-01 12:00:00";
               value := EmptyString |}
            None
       :: rest).
Proof.
  exact (date_lookup_failure_still_prompts Sample.simpleGit (Sample.host None)
           "ffffffffff" "/work" None Sample.ahead_of_main
           (Sample.fatal "bad object ffffffffff") eq_refl eq_refl eq_refl).
Defined.
